(** * Django-monitor: the admin layer ([monitor/admin.py]) and the moderation
    rules exercised by [monitor/tests/apps/testapp/tests.py].

    Part I holds the embedding, Part II the properties.

    Conventions of the embedding:
    - a Python [str] is a [string]; [None]-or-[str] is [option string];
    - a [dict] is a [gmap]; Django's [QueryDict] maps a key to the list of
      values given for it;
    - a raised exception is the [Raise] outcome of the [result] type;
    - an attribute assignment on an object the caller still holds
      ([request.GET = ...]) is explicit state passing: the function returns
      the object it leaves behind;
    - framework code ([django.contrib.admin.ModelAdmin], the permission
      backend) and the modules of the package whose source is not
      available are parameters of the sections below. *)

From Stdlib Require Import Ascii String.
From stdpp Require Import gmap strings list fin_maps.

Local Open Scope string_scope.

(* ===================================================================== *)
(** * Part I.  The embedding                                              *)
(* ===================================================================== *)

(** ** Python built-ins used by the source *)

Module Py.

(** Exceptions that the modelled code can raise. *)
Inductive Exception :=
| KeyError (key : string)
| AttributeError (name : string)
| TypeError (left right : string).

Inductive result (A : Type) :=
| Ok (a : A)
| Raise (e : Exception).
Arguments Ok {A} a.
Arguments Raise {A} e.

(** Sequencing: an exception ends the computation. *)
#[export] Instance result_ret : MRet result := λ A a, Ok a.
#[export] Instance result_bind : MBind result := λ A B k m,
  match m with
  | Ok a => k a
  | Raise e => Raise e
  end.

(** Truth value of an object that is [None] or a [str]:
    [None] and [''] are false. *)
Definition truthy (o : option string) : bool :=
  match o with
  | None => false
  | Some s => negb (String.eqb s "")
  end.

(** [str.lower()] on a byte string: the letters [A]..[Z] move to
    [a]..[z], every other byte stays. *)
Definition lower_char (c : ascii) : ascii :=
  let n := nat_of_ascii c in
  if (65 <=? n)%nat && (n <=? 90)%nat then ascii_of_nat (n + 32) else c.

Fixpoint lower (s : string) : string :=
  match s with
  | EmptyString => EmptyString
  | String c s' => String (lower_char c) (lower s')
  end.

(** [s.startswith(p)] *)
Fixpoint startswith (p s : string) : bool :=
  match p with
  | EmptyString => true
  | String a p' =>
      match s with
      | EmptyString => false
      | String b s' => Ascii.eqb a b && startswith p' s'
      end
  end.

(** [old in s]: [old] occurs in [s] as a substring. *)
Fixpoint occurs (old s : string) : bool :=
  startswith old s ||
  match s with
  | EmptyString => false
  | String _ s' => occurs old s'
  end.

(** [c in s] for a single character. *)
Fixpoint has_char (c : ascii) (s : string) : bool :=
  match s with
  | EmptyString => false
  | String b s' => Ascii.eqb c b || has_char c s'
  end.

(** [s.replace(old, new)] for a non-empty [old]: the string is scanned
    from the left; at every occurrence of [old] that does not overlap
    the previous one, [new] is written and the scan resumes behind the
    occurrence.  [skip] counts the characters of the current occurrence
    still to be passed over. *)
Fixpoint replace_from (old new : string) (skip : nat) (s : string) : string :=
  match s with
  | EmptyString => EmptyString
  | String c s' =>
      match skip with
      | S k => replace_from old new k s'
      | O =>
          if startswith old s
          then new ++ replace_from old new (String.length old - 1) s'
          else String c (replace_from old new 0 s')
      end
  end.

(** With an empty [old], Python writes [new] before every character and
    at the end. *)
Fixpoint interleave (new s : string) : string :=
  match s with
  | EmptyString => new
  | String c s' => new ++ String c (interleave new s')
  end.

Definition replace (s old new : string) : string :=
  match old with
  | EmptyString => interleave new s
  | String _ _ => replace_from old new 0 s
  end.

(** A sequence-valued attribute of an admin class is a tuple or a list. *)
Inductive Seq :=
| PyTuple (xs : list string)
| PyList (xs : list string).

(** The entries of a sequence, which is what [list(s)] holds. *)
Definition items (s : Seq) : list string :=
  match s with
  | PyTuple xs => xs
  | PyList xs => xs
  end.

(** [x in s] *)
Definition contains (x : string) (s : Seq) : bool := bool_decide (x ∈ items s).

(** [a + b] on sequences: two tuples give a tuple, two lists a list; a
    tuple and a list cannot be added, Python raises [TypeError] naming the
    two types. *)
Definition add (a b : Seq) : result Seq :=
  match a, b with
  | PyTuple xs, PyTuple ys => Ok (PyTuple (xs ++ ys))
  | PyList xs, PyList ys => Ok (PyList (xs ++ ys))
  | PyTuple _, PyList _ => Raise (TypeError "tuple" "list")
  | PyList _, PyTuple _ => Raise (TypeError "list" "tuple")
  end.

End Py.

Export Py.

(** ** [django.http.QueryDict]: the parsed query string *)

Module QueryDict.

(** Every key maps to the list of the values given for it, in the order
    of the query string. *)
Abbreviation t := (gmap string (list string)).

(** [d.get(key, None)]: the last value of the key; [None] when the key
    is absent or its list is empty. *)
Definition get (d : t) (key : string) : option string :=
  match d !! key with
  | Some vs => last vs
  | None => None
  end.

(** [d.copy()]: a mutable copy with the same contents. *)
Definition copy (d : t) : t := d.

(** [del d[key]]: raises [KeyError] when the key is absent. *)
Definition delitem (d : t) (key : string) : Py.result t :=
  match d !! key with
  | Some _ => Py.Ok (delete key d)
  | None => Py.Raise (Py.KeyError key)
  end.

End QueryDict.

(** ** The objects [monitor/admin.py] works with *)

(** [monitor.conf]: the three status codes.  The module is missing from the
    sources, so the codes are fields of a parameter. *)
Record Conf := {
  PENDING_STATUS : string;
  CHALLENGED_STATUS : string;
  APPROVED_STATUS : string
}.

(** The codes name three different statuses, and none of them is the
    empty string. *)
Definition status_codes_ok (conf : Conf) : Prop :=
  PENDING_STATUS conf ≠ CHALLENGED_STATUS conf ∧
  PENDING_STATUS conf ≠ APPROVED_STATUS conf ∧
  CHALLENGED_STATUS conf ≠ APPROVED_STATUS conf ∧
  PENDING_STATUS conf ≠ "" ∧
  CHALLENGED_STATUS conf ≠ "" ∧
  APPROVED_STATUS conf ≠ "".

(** A model class is known by its name. *)
Abbreviation ModelId := string.

(** [model._meta]: the attributes of [django.db.models.options.Options]
    that the admin reads; [pk_attname] stands for [opts.pk.attname]. *)
Record Options := {
  app_label : string;
  object_name : string;
  pk_attname : string
}.

(** [opts.model].  The module imports [django.contrib.admin.filterspecs],
    which Django has up to version 1.3; the [Options] of these versions has
    no attribute [model], so reading it raises [AttributeError]. *)
Definition Options_model (o : Options) : result ModelId :=
  Raise (AttributeError "model").

(** A model class: its name and its [_meta]. *)
Record ModelClass := { model_id : ModelId; _meta : Options }.

(** The admin site an admin object is registered with. *)
Record AdminSite := { site_name : string }.

(** The dict that the moderation queue keeps for a model:
    [tests.py] reads its keys ['monitor_name'] and ['status_name'],
    [admin.py] its key ['can_delete_approved']. *)
Record QueueEntry := {
  monitor_name : string;
  status_name : string;
  can_delete_approved : bool
}.

(** A row of the monitor table: the moderation status of one object. *)
Record MonitorEntry := { entry_status : string }.

(** An instance of a model, as far as the admin looks at it: its primary
    key and its [status] attribute. *)
Record Obj := { pk : nat; status : string }.

#[global] Instance Obj_eq_dec : EqDecision Obj.
Proof. solve_decision. Defined.

(** A queryset is the sequence of rows it would fetch. *)
Abbreviation QuerySet := (list Obj).

(** [request.user] with its permission check. *)
Record User := { has_perm : string → bool }.

(** [django.http.HttpRequest]: the query parameters and the actor. *)
Record HttpRequest := { GET : QueryDict.t; user : User }.

(** [request.GET = d] *)
Definition set_GET (request : HttpRequest) (d : QueryDict.t) : HttpRequest :=
  {| GET := d; user := user request |}.

(** A function object used as an admin action; [short_description] is
    the optional attribute of that name. *)
Record Callable := { func_name : string; short_description : option string }.

(** [getattr(f, 'short_description', dflt)] *)
Definition getattr_short_description (f : Callable) (dflt : string) : string :=
  default dflt (short_description f).

(** The tuple [(callable, name, description)] stored for an action. *)
Abbreviation Action := (Callable * string * string)%type.

(** What a subclass of [MonitorAdmin] declares in its class body, with
    Django's defaults where it declares nothing: [list_display] is
    [('__str__',)], [actions] is [[]], the other sequences are [()];
    [protected_fields = ()] is line 23. *)
Record AdminClass := {
  cls_list_filter : Seq;
  cls_list_display : Seq;
  cls_actions : option (list string);
  cls_readonly_fields : Seq;
  cls_protected_fields : Seq
}.

(** The attributes of a [MonitorAdmin] object that the methods read. *)
Record MonitorAdmin := {
  model : ModelId;
  opts : Options;
  admin_site : AdminSite;
  list_filter : Seq;
  list_display : Seq;
  readonly_fields : Seq;
  protected_fields : Seq
}.

(** [self.list_filter = v] and [self.list_display = v] *)
Definition set_list_filter (self : MonitorAdmin) (v : Seq) : MonitorAdmin :=
  {| model := model self; opts := opts self; admin_site := admin_site self;
     list_filter := v; list_display := list_display self;
     readonly_fields := readonly_fields self;
     protected_fields := protected_fields self |}.

Definition set_list_display (self : MonitorAdmin) (v : Seq) : MonitorAdmin :=
  {| model := model self; opts := opts self; admin_site := admin_site self;
     list_filter := list_filter self; list_display := v;
     readonly_fields := readonly_fields self;
     protected_fields := protected_fields self |}.

(** [ModelAdmin.__init__(self, model, admin_site)] of Django 1.3, as far
    as it sets attributes that [MonitorAdmin] reads: [model], [opts] and
    [admin_site] are stored, and unless [list_display] holds
    ['action_checkbox'] already or [actions] is [None], [list_display]
    becomes [['action_checkbox'] + list(self.list_display)].  The other
    attributes are the ones the class declares. *)
Definition ModelAdmin_init (cls : AdminClass) (model : ModelClass)
    (admin_site : AdminSite) : MonitorAdmin :=
  {| model := model_id model;
     opts := _meta model;
     admin_site := admin_site;
     list_filter := cls_list_filter cls;
     list_display :=
       if negb (contains "action_checkbox" (cls_list_display cls)) &&
          bool_decide (cls_actions cls ≠ None)
       then PyList (["action_checkbox"] ++ items (cls_list_display cls))
       else cls_list_display cls;
     readonly_fields := cls_readonly_fields cls;
     protected_fields := cls_protected_fields cls |}.

(** ** [class MonitorAdmin(admin.ModelAdmin)] *)

Section MonitorAdmin.

(** [monitor.conf] *)
Variable conf : Conf.

(** The moderation queue behind [monitor.model_from_queue]. *)
Variable queue : gmap ModelId QueueEntry.

(** [monitor.get_monitor_entry] *)
Variable get_monitor_entry : Obj → MonitorEntry.

(** The action functions of [monitor.actions]. *)
Variables approve_selected challenge_selected reset_to_pending : Callable.

(** The methods of the parent class [admin.ModelAdmin] that the
    overriding methods reach through [super]. *)
Variable ModelAdmin_queryset : MonitorAdmin → HttpRequest → QuerySet.
Variable ModelAdmin_get_actions : MonitorAdmin → HttpRequest → gmap string Action.
Variable ModelAdmin_has_delete_permission :
  MonitorAdmin → HttpRequest → option Obj → bool.

(** Modelled from the spec: [monitor.model_from_queue] is missing from the
    sources; it is the registry's [lookup(entity_type) -> config | none]. *)
Definition model_from_queue (m : ModelId) : option QueueEntry := queue !! m.

(** Modelled from the spec: [MonitorEntry.is_approved] is missing from the
    sources; the predicate is derived from the status attribute. *)
Definition is_approved (e : MonitorEntry) : bool :=
  bool_decide (entry_status e = APPROVED_STATUS conf).

(** Modelled from the spec: the queryset methods [pending], [challenged]
    and [approved] of [monitor.util] are missing from the sources; they
    narrow a query to the rows whose status attribute has the given
    value. *)
Definition by_status (code : string) (qs : QuerySet) : QuerySet :=
  filter (λ o, status o = code) qs.

Definition pending (qs : QuerySet) : QuerySet := by_status (PENDING_STATUS conf) qs.
Definition challenged (qs : QuerySet) : QuerySet := by_status (CHALLENGED_STATUS conf) qs.
Definition approved (qs : QuerySet) : QuerySet := by_status (APPROVED_STATUS conf) qs.

(** [MonitorAdmin.__init__], lines 25-29: line 27 runs the constructor of
    the parent class, lines 28 and 29 then assign new lists to
    [list_filter] and [list_display]. *)
Definition __init__ (cls : AdminClass) (model : ModelClass)
    (admin_site : AdminSite) : MonitorAdmin :=
  let self := ModelAdmin_init cls model admin_site in
  let self :=
    set_list_filter self
      (PyList ([pk_attname (opts self)] ++ items (list_filter self))) in
  let self :=
    set_list_display self
      (PyList (items (list_display self) ++ ["get_status_display"])) in
  self.

(** [MonitorAdmin.queryset], lines 31-55.  The result is the queryset
    together with the request object as the method leaves it. *)
Definition queryset (self : MonitorAdmin) (request : HttpRequest)
  : result (QuerySet * HttpRequest) :=
  let qs := ModelAdmin_queryset self request in
  let status := QueryDict.get (GET request) "status" in
  request' ←
    (if truthy status then
       let get_dict := QueryDict.copy (GET request) in
       get_dict' ← QueryDict.delitem get_dict "status";
       mret (set_GET request get_dict')
     else mret request);
  let qs' :=
    if truthy status && bool_decide (status = Some (PENDING_STATUS conf))
    then pending qs
    else if truthy status && bool_decide (status = Some (CHALLENGED_STATUS conf))
    then challenged qs
    else if truthy status && bool_decide (status = Some (APPROVED_STATUS conf))
    then approved qs
    else qs in
  mret (qs', request').

(** [MonitorAdmin.is_monitored], lines 57-59: the queue entry is a dict
    with keys, so it is true whenever there is one. *)
Definition is_monitored (self : MonitorAdmin) : bool :=
  bool_decide (is_Some (model_from_queue (model self))).

(** [MonitorAdmin.get_readonly_fields], lines 61-65.  Line 64 adds the
    two sequences as they are. *)
Definition get_readonly_fields (self : MonitorAdmin) (request : HttpRequest)
    (obj : option Obj) : result Seq :=
  if is_monitored self &&
     match obj with
     | Some o => bool_decide (status o = APPROVED_STATUS conf)
     | None => false
     end
  then add (readonly_fields self) (protected_fields self)
  else mret (readonly_fields self).

(** The format ['%s.moderate_%s' % (app_label.lower(), object_name.lower())]
    of lines 70-72 and 101-103. *)
Definition mod_perm (self : MonitorAdmin) : string :=
  lower (app_label (opts self)) ++ ".moderate_" ++ lower (object_name (opts self)).

(** Line 73: [mod_perm.replace('moderate', 'change')]. *)
Definition change_perm (self : MonitorAdmin) : string :=
  replace (mod_perm self) "moderate" "change".

(** [MonitorAdmin.get_actions], lines 67-94. *)
Definition get_actions (self : MonitorAdmin) (request : HttpRequest)
  : gmap string Action :=
  let actions := ModelAdmin_get_actions self request in
  let actions :=
    if has_perm (user request) (mod_perm self) then
      let descr := getattr_short_description approve_selected "approve selected" in
      let actions :=
        <["approve_selected" := (approve_selected, "approve_selected", descr)]> actions in
      let descr := getattr_short_description challenge_selected "challenge selected" in
      <["challenge_selected" := (challenge_selected, "challenge_selected", descr)]> actions
    else actions in
  let actions :=
    if has_perm (user request) (change_perm self) then
      let descr := getattr_short_description reset_to_pending "reset to pending" in
      <["reset_to_pending" := (reset_to_pending, "reset_to_pending", descr)]> actions
    else actions in
  actions.

(** [MonitorAdmin.has_moderate_permission], lines 96-104. *)
Definition has_moderate_permission (self : MonitorAdmin) (request : HttpRequest) : bool :=
  has_perm (user request) (mod_perm self).

(** Lines 113-118 of [has_delete_permission], for the queue entry that
    line 112 has looked up. *)
Definition has_delete_permission_113_118 (model : option QueueEntry)
    (self : MonitorAdmin) (request : HttpRequest) (obj : option Obj) : bool :=
  if match model with
     | Some entry =>
         negb (can_delete_approved entry) &&
         match obj with
         | Some o => is_approved (get_monitor_entry o)
         | None => false
         end
     | None => false
     end
  then false
  else ModelAdmin_has_delete_permission self request obj.

(** [MonitorAdmin.has_delete_permission], lines 106-118.  Line 112 reads
    [self.opts.model] before anything else. *)
Definition has_delete_permission (self : MonitorAdmin) (request : HttpRequest)
    (obj : option Obj) : result bool :=
  cls ← Options_model (opts self);
  let model := model_from_queue cls in
  mret (has_delete_permission_113_118 model self request obj).

End MonitorAdmin.

(** ** The transition engine *)

(** The modules that implement the moderation state machine
    ([monitor/__init__.py], [monitor/util.py], [monitor/models.py]) are missing
    from the sources.  The engine below follows the
    specification; [tests.py] exercises it through the admin. *)

Module Engine.

(** Modelled from the spec: the closed status enum of [monitor.conf]. *)
Inductive Status := PENDING | CHALLENGED | APPROVED.

#[global] Instance Status_eq_dec : EqDecision Status.
Proof. solve_decision. Defined.

Abbreviation EntityType := string.

(** Modelled from the spec: the [ModeratedTypeConfig] that [register]
    stores for a type ([monitor.nq] is missing from the sources). *)
Record ModeratedTypeConfig := {
  status_field_name : string;
  monitor_field_name : string;
  cascade_parent : option EntityType;
  can_delete_approved : bool
}.

(** The registry: [lookup(entity_type)] is the map lookup. *)
Abbreviation Registry := (gmap EntityType ModeratedTypeConfig).

(** Modelled from the spec: a moderated instance carries its status and
    the reference to its cascade parent instance, if it has one (the
    model classes are missing from the sources).  The reference is the
    primary key of the parent row; the parent's type is the
    [cascade_parent] of the instance's type. *)
Record Instance := {
  status : Status;
  parent_ptr : option nat
}.

(** An instance is identified by its type and primary key. *)
Abbreviation Key := (EntityType * nat)%type.

(** The persisted instances of all moderated types. *)
Abbreviation Store := (gmap Key Instance).

Definition set_status (i : Instance) (s : Status) : Instance :=
  {| status := s; parent_ptr := parent_ptr i |}.

Definition status_of (st : Store) (k : Key) : option Status :=
  status <$> st !! k.

(** Modelled from the spec: the read-only predicates derived from the
    status attribute ([monitor.util] is missing from the sources). *)
Definition is_pending (s : Status) : bool := bool_decide (s = PENDING).
Definition is_approved (s : Status) : bool := bool_decide (s = APPROVED).

(** Modelled from the spec: the error taxonomy. *)
Inductive Error :=
| ConfigurationError (t : EntityType)
| NotModeratedError (t : EntityType)
| PermissionDenied (permission : string)
| CascadeFailure (link : EntityType).

(** Modelled from the spec: [permission_name(verb, type)], the pattern
    [<verb>_<type>] (the permission set-up is missing from the sources). *)
Definition permission_name (verb : string) (t : EntityType) : string :=
  verb ++ "_" ++ t.

Record Actor := { has_permission : string → bool }.

(** The parent instance of [k]: the row that the cascade moves to. *)
Definition parent_of (reg : Registry) (st : Store) (k : Key) : option Key :=
  cfg ← reg !! k.1;
  p ← cascade_parent cfg;
  row ← st !! k;
  ppk ← parent_ptr row;
  Some (p, ppk).

(** The instances on the cascade chain of [k]: [k] itself, its parent,
    the parent of the parent, and so on. *)
Definition ancestor (reg : Registry) (st : Store) : Key → Key → Prop :=
  rtc (λ x y, parent_of reg st x = Some y).

(** Modelled from the spec: [transition(instance, target_status, actor)]
    of the Transition Engine ([moderate] of [monitor/util.py] is missing
    from the sources).
    1. look the type up in the registry, [NotModeratedError] if absent;
    2. set the status and persist;
    3. if the type has a cascade parent, resolve the parent instance and
       repeat with the same target; a link that cannot be moved is a
       [CascadeFailure] naming it;
    4. return the result.
    The actor is not consulted: the caller has checked the permission.
    [depth] bounds the length of the chain that is followed; a longer
    chain is a failure of the link where the bound is hit.  A failed
    transition leaves the store to the caller as it was (all or
    nothing). *)
Fixpoint transition (depth : nat) (reg : Registry) (st : Store) (k : Key)
    (target : Status) : Error + Store :=
  match depth with
  | O => inl (CascadeFailure k.1)
  | S depth' =>
      match reg !! k.1 with
      | None => inl (NotModeratedError k.1)
      | Some cfg =>
          match st !! k with
          | None => inl (CascadeFailure k.1)
          | Some row =>
              let st1 := <[k := set_status row target]> st in
              match cascade_parent cfg with
              | None => inr st1
              | Some p =>
                  match parent_ptr row with
                  | None => inl (CascadeFailure p)
                  | Some ppk =>
                      match transition depth' reg st1 (p, ppk) target with
                      | inl (NotModeratedError t) => inl (CascadeFailure t)
                      | r => r
                      end
                  end
              end
          end
      end
  end.

(** The instance methods delegate to the engine. *)
Definition approve depth reg st k := transition depth reg st k APPROVED.
Definition challenge depth reg st k := transition depth reg st k CHALLENGED.
Definition reset_to_pending depth reg st k := transition depth reg st k PENDING.

(** The chain above [k] can be walked to its end within [depth] links:
    every type on it is registered and every parent reference resolves. *)
Fixpoint chain_ok (depth : nat) (reg : Registry) (st : Store) (k : Key) : bool :=
  match depth with
  | O => false
  | S depth' =>
      match reg !! k.1, st !! k with
      | Some cfg, Some row =>
          match cascade_parent cfg with
          | None => true
          | Some p =>
              match parent_ptr row with
              | None => false
              | Some ppk => chain_ok depth' reg st (p, ppk)
              end
          end
      | _, _ => false
      end
  end.

(** Modelled from the spec: the auto-approval rule on the create path
    (the save hooks are missing from the sources).  The record is
    persisted in [PENDING]; if the actor holds the type's moderate
    permission the engine is invoked at once with [APPROVED]; otherwise
    the record stays [PENDING].  A type that is not registered is not
    moderated: nothing is recorded for it. *)
Definition create (depth : nat) (reg : Registry) (actor : Actor) (st : Store)
    (k : Key) (parent : option nat) : Error + Store :=
  match reg !! k.1 with
  | None => inr st
  | Some _ =>
      let st1 := <[k := {| status := PENDING; parent_ptr := parent |}]> st in
      if has_permission actor (permission_name "moderate" k.1)
      then transition depth reg st1 k APPROVED
      else inr st1
  end.

End Engine.

(** ** The assertions of [tests.py] on the default manager *)

Module Tests.

Import Engine.

(** A row of a moderated model's table as the tests look at it: primary
    key and moderation status. *)
Record Row := { row_pk : nat; row_status : Status }.

#[global] Instance Row_eq_dec : EqDecision Row.
Proof. solve_decision. Defined.

(** The default manager [Model.objects].  Its class, the [CustomManager]
    of [monitor/util.py] (line 119 of the tests), is missing from the
    sources: a manager is the function from the table's rows to the rows
    its queryset yields. *)
Abbreviation Manager := (list Row → list Row).

(** [Model.objects.count()] *)
Definition count (objects : Manager) (table : list Row) : nat :=
  length (objects table).

(** [Model.objects.get(pk=n)]: the one row with that key; Django raises
    [DoesNotExist] or [MultipleObjectsReturned] otherwise. *)
Definition get (objects : Manager) (table : list Row) (n : nat) : option Row :=
  match filter (λ r, row_pk r = n) (objects table) with
  | [r] => Some r
  | _ => None
  end.

(** [assertEquals(Model.objects.get(pk=n).<attr>, True)] with the attribute
    given as a predicate on the status. *)
Definition assert_get (objects : Manager) (table : list Row) (n : nat)
    (attr : Status → bool) : bool :=
  match get objects table n with
  | Some r => attr (row_status r)
  | None => false
  end.

(** Lines 144-146 of [test_2_moderation], run on the author table as it
    is after the two posts of the actor without moderate permission. *)
Definition test_2_moderation_144_146 (objects : Manager) (table : list Row) : bool :=
  bool_decide (count objects table = 2) &&
  assert_get objects table 1 is_pending &&
  assert_get objects table 2 is_pending.






(** Modelled from the spec: the default accessor of a moderated type
    yields the instances of the type narrowed by their status, as the
    narrowing queries do ([CustomManager] and its queryset are missing
    from the sources).  Which statuses it lets through is [visible]. *)
Definition status_manager (visible : Status → bool) : Manager :=
  filter (λ r, visible (row_status r) = true).

(** Modelled from the spec: the default accessor "returns only approved
    instances" ([CustomManager] is missing from the sources). *)
Definition approved_only : Manager := status_manager is_approved.


End Tests.


(** ** Sample data: the test application *)

Module Sample.

(** Status codes: [IP] and [AP] are the codes that the comments of
    [tests.py] give for pending and approved. *)
Definition conf : Conf :=
  {| PENDING_STATUS := "IP"; CHALLENGED_STATUS := "CH"; APPROVED_STATUS := "AP" |}.

(** The default admin site. *)
Definition site : AdminSite := {| site_name := "admin" |}.

(** The models [Author] and [ModeratedPost] of the application [testapp]. *)
Definition Author : ModelClass :=
  {| model_id := "Author";
     _meta := {| app_label := "testapp"; object_name := "Author";
                 pk_attname := "id" |} |}.

Definition ModeratedPost : ModelClass :=
  {| model_id := "ModeratedPost";
     _meta := {| app_label := "testapp"; object_name := "ModeratedPost";
                 pk_attname := "id" |} |}.

(** An admin class that declares nothing: Django's defaults. *)
Definition PlainAdmin : AdminClass :=
  {| cls_list_filter := PyTuple [];
     cls_list_display := PyTuple ["__str__"];
     cls_actions := Some [];
     cls_readonly_fields := PyTuple [];
     cls_protected_fields := PyTuple [] |}.

(** An admin class for authors that declares its sequences as tuples. *)
Definition AuthorAdmin : AdminClass :=
  {| cls_list_filter := PyTuple [];
     cls_list_display := PyTuple ["name"];
     cls_actions := Some [];
     cls_readonly_fields := PyTuple ["id"];
     cls_protected_fields := PyTuple ["name"] |}.

(** The same with [protected_fields = ['name']], a list, and
    [readonly_fields] left at Django's default [()]. *)
Definition ListAuthorAdmin : AdminClass :=
  {| cls_list_filter := PyTuple [];
     cls_list_display := PyTuple ["name"];
     cls_actions := Some [];
     cls_readonly_fields := PyTuple [];
     cls_protected_fields := PyList ["name"] |}.

(** The admin objects. *)
Definition author_admin : MonitorAdmin := __init__ AuthorAdmin Author site.
Definition list_author_admin : MonitorAdmin := __init__ ListAuthorAdmin Author site.
Definition moderated_post_admin : MonitorAdmin := __init__ PlainAdmin ModeratedPost site.

(** A queue that holds [Author] and forbids deleting approved authors. *)
Definition queue : gmap ModelId QueueEntry :=
  {[ "Author" := {| monitor_name := "monitor_entry"; status_name := "status";
                    can_delete_approved := false |} ]}.

Definition author_1 : Obj := {| pk := 1; status := "AP" |}.
Definition author_2 : Obj := {| pk := 2; status := "CH" |}.
Definition author_3 : Obj := {| pk := 3; status := "IP" |}.

Definition authors : QuerySet := [author_1; author_2; author_3].

(** The monitor entry of an object carries the object's status. *)
Definition get_monitor_entry (o : Obj) : MonitorEntry :=
  {| entry_status := status o |}.

(** The user [adder] of the tests: may change authors, may not moderate. *)
Definition adder : User :=
  {| has_perm := λ p, String.eqb p "testapp.change_author" |}.

(** A superuser, for whom the parent class grants deletion. *)
Definition superuser : User := {| has_perm := λ _, true |}.

(** [GET /admin/testapp/author/?status=CH] by [adder]. *)
Definition challenged_request : HttpRequest :=
  {| GET := {[ "status" := ["CH"] ]}; user := adder |}.

Definition superuser_request : HttpRequest :=
  {| GET := ∅; user := superuser |}.

(** The parent class in the samples: all authors, no actions of its own,
    deletion according to [delete_author]. *)
Definition ModelAdmin_queryset (_ : MonitorAdmin) (_ : HttpRequest) : QuerySet :=
  authors.
Definition ModelAdmin_get_actions (_ : MonitorAdmin) (_ : HttpRequest)
  : gmap string Action := ∅.
Definition ModelAdmin_has_delete_permission (_ : MonitorAdmin)
    (request : HttpRequest) (_ : option Obj) : bool :=
  has_perm (user request) "testapp.delete_author".

Definition action (name : string) : Callable :=
  {| func_name := name; short_description := None |}.

(** [EBook] is a specialization of [Book] (lines 216-243 of the tests). *)
Definition registry : Engine.Registry :=
  {[ "EBook" := {| Engine.status_field_name := "status";
                   Engine.monitor_field_name := "monitor_entry";
                   Engine.cascade_parent := Some "Book";
                   Engine.can_delete_approved := true |};
     "Book" := {| Engine.status_field_name := "status";
                  Engine.monitor_field_name := "monitor_entry";
                  Engine.cascade_parent := None;
                  Engine.can_delete_approved := true |} ]}.

(** [eb1] and its [book_ptr], both pending (lines 236-237). *)
Definition store : Engine.Store :=
  {[ ("EBook", 1) := {| Engine.status := Engine.PENDING; Engine.parent_ptr := Some 1 |};
     ("Book", 1) := {| Engine.status := Engine.PENDING; Engine.parent_ptr := None |} ]}.

(** The store with [Book] 1 only, before the [EBook] row is created. *)
Definition book_store : Engine.Store :=
  {[ ("Book", 1) := {| Engine.status := Engine.PENDING; Engine.parent_ptr := None |} ]}.

(** The user [moder] of the tests holds the moderate permissions. *)
Definition moder : Engine.Actor := {| Engine.has_permission := λ _, true |}.

End Sample.

(** ** The filter registration at import time *)

Module FilterSpecs.

(** A model field as the filter machinery sees it: [monitor_filter] is an
    attribute that a field may or may not have. *)
Record Field := { field_name : string; monitor_filter : option bool }.

(** The filter classes: the one of [monitor.filter] and those of Django. *)
Inductive Factory :=
| MonitorFilter
| DjangoFilter (name : string).

#[global] Instance Factory_eq_dec : EqDecision Factory.
Proof. solve_decision. Defined.

(** An entry of [FilterSpec.filter_specs]: a test on the field and the
    class to use when the test accepts it. *)
Abbreviation Spec := ((Field → bool) * Factory)%type.

(** The test of line 16: [lambda f: getattr(f, 'monitor_filter', False)]. *)
Definition monitor_test (f : Field) : bool := default false (monitor_filter f).

(** Lines 15-17: [FilterSpec.filter_specs.insert(0, (test, MonitorFilter))],
    executed when [monitor.admin] is imported. *)
Definition register_monitor_filter (filter_specs : list Spec) : list Spec :=
  (monitor_test, MonitorFilter) :: filter_specs.

(** [FilterSpec.create] of Django walks the list and takes the class of the
    first entry whose test accepts the field. *)
Fixpoint create (filter_specs : list Spec) (f : Field) : option Factory :=
  match filter_specs with
  | [] => None
  | (test, factory) :: rest => if test f then Some factory else create rest f
  end.

End FilterSpecs.

(** ** The permission helpers of [tests.py] *)

Module PermHelpers.

(** A row of Django's content type table; the helpers only compare them. *)
Record ContentType := { ct_id : nat }.

#[global] Instance ContentType_eq_dec : EqDecision ContentType.
Proof. solve_decision. Defined.

(** A row of [auth.Permission]. *)
Record Permission := { content_type : ContentType; codename : string }.

#[global] Instance Permission_eq_dec : EqDecision Permission.
Proof. solve_decision. Defined.

(** What [Manager.get] raises when it does not find exactly one row. *)
Inductive OrmError := DoesNotExist | MultipleObjectsReturned.

Section Helpers.

(** [ContentType.objects.get_for_model(Model)], with the model given by
    its [_meta]. *)
Variable get_for_model : Options → ContentType.

(** The permission table. *)
Variable table : list Permission.

(** [Permission.objects.filter(content_type = ct, codename = perm)] *)
Definition filter_perms (ct : ContentType) (perm : string) : list Permission :=
  filter (λ p, content_type p = ct ∧ codename p = perm) table.

(** [get_perm], lines 14-17. *)
Definition get_perm (Model : Options) (perm : string) : OrmError + Permission :=
  let ct := get_for_model Model in
  match filter_perms ct perm with
  | [] => inl DoesNotExist
  | [p] => inr p
  | _ => inl MultipleObjectsReturned
  end.

(** The codename of line 24: ['moderate_%s' % Model._meta.object_name.lower()]. *)
Definition moderate_codename (Model : Options) : string :=
  "moderate_" ++ lower (object_name Model).

(** [moderate_perm_exists], lines 19-25. *)
Definition moderate_perm_exists (Model : Options) : bool :=
  let ct := get_for_model Model in
  bool_decide (filter_perms ct (moderate_codename Model) ≠ []).

End Helpers.

End PermHelpers.

(** ** Further sample data *)

Module Fixture.

(** [?status=IP&status=CH&page=2] by the user [adder]. *)
Definition paged_request : HttpRequest :=
  {| GET := {[ "status" := ["IP"; "CH"]; "page" := ["2"] ]};
     user := Sample.adder |}.

(** [?status=&page=2]: the status parameter with an empty value. *)
Definition blank_request : HttpRequest :=
  {| GET := {[ "status" := [""]; "page" := ["2"] ]}; user := Sample.adder |}.

(** A parent class that already offers [delete_selected]. *)
Definition ModelAdmin_get_actions (_ : MonitorAdmin) (_ : HttpRequest)
  : gmap string Action :=
  {[ "delete_selected" :=
       (Sample.action "delete_selected", "delete_selected", "Delete selected") ]}.

(** The admin of a model in an app whose label holds 'moderate'. *)
Definition moderated_app_admin : MonitorAdmin :=
  __init__ Sample.PlainAdmin
    {| model_id := "Post";
       _meta := {| app_label := "Moderated"; object_name := "Post";
                   pk_attname := "id" |} |}
    Sample.site.

(** The author admin with the names written in capitals. *)
Definition capital_author_admin : MonitorAdmin :=
  __init__ Sample.PlainAdmin
    {| model_id := "AUTHOR";
       _meta := {| app_label := "TestApp"; object_name := "AUTHOR";
                   pk_attname := "id" |} |}
    Sample.site.

(** Django's filter specs before [monitor.admin] is imported, in part. *)
Definition django_specs : list FilterSpecs.Spec :=
  [ (λ f, String.eqb (FilterSpecs.field_name f) "author",
     FilterSpecs.DjangoFilter "RelatedFilterSpec");
    (λ _, true, FilterSpecs.DjangoFilter "AllValuesFilterSpec") ].

Definition status_field : FilterSpecs.Field :=
  {| FilterSpecs.field_name := "author"; FilterSpecs.monitor_filter := Some true |}.

(** Content types by model name, and the permissions of [Author]. *)
Definition get_for_model (Model : Options) : PermHelpers.ContentType :=
  {| PermHelpers.ct_id := String.length (object_name Model) |}.

Definition permissions : list PermHelpers.Permission :=
  [ {| PermHelpers.content_type := {| PermHelpers.ct_id := 6 |};
       PermHelpers.codename := "add_author" |};
    {| PermHelpers.content_type := {| PermHelpers.ct_id := 6 |};
       PermHelpers.codename := "change_author" |};
    {| PermHelpers.content_type := {| PermHelpers.ct_id := 6 |};
       PermHelpers.codename := "moderate_author" |} ].

End Fixture.
(* ===================================================================== *)
(** * Part II.  Properties                                                *)
(* ===================================================================== *)

(** ** Strings *)

Section StringFacts.

Implicit Types (old new a s rest : string) (c : ascii).

Lemma has_char_cons_false c x old :
  has_char c (String x old) = false → Ascii.eqb x c = false ∧ has_char c old = false.
Proof.
  simpl. intros [Hx Hold]%orb_false_iff. split; [|done].
  by rewrite Ascii.eqb_sym.
Qed.

(** A character that [old] does not contain stops every match of [old]. *)
Lemma startswith_app_char old a c rest :
  has_char c old = false →
  startswith old (a ++ String c rest) = startswith old a.
Proof.
  revert a. induction old as [|x old IH]; intros a Hc; [done|].
  apply has_char_cons_false in Hc as [Hx Hold].
  destruct a as [|y a]; simpl.
  - by rewrite Hx.
  - by rewrite IH.
Qed.

Lemma occurs_cons_false old x s :
  occurs old (String x s) = false →
  startswith old (String x s) = false ∧ occurs old s = false.
Proof.
  intros H. change (startswith old (String x s) || occurs old s = false) in H.
  by apply orb_false_iff in H.
Qed.

(** Where [old] does not occur, [replace] changes nothing. *)
Lemma replace_from_no_occurrence old new s :
  occurs old s = false → replace_from old new 0 s = s.
Proof.
  induction s as [|x s IH]; intros H; [done|].
  apply occurs_cons_false in H as [Hsw Hocc].
  cbn [replace_from]. rewrite Hsw. by rewrite IH.
Qed.

(** The scan passes unchanged over a stretch without an occurrence that
    ends in a character foreign to [old]. *)
Lemma replace_from_app old new a c rest :
  occurs old a = false →
  has_char c old = false →
  replace_from old new 0 (a ++ String c rest) =
  a ++ replace_from old new 0 (String c rest).
Proof.
  intros Hocc Hc. induction a as [|y a IH]; [done|].
  apply occurs_cons_false in Hocc as [Hsw Hocc].
  change (String y a ++ String c rest) with (String y (a ++ String c rest)).
  cbn [replace_from].
  change (String y (a ++ String c rest)) with (String y a ++ String c rest).
  rewrite startswith_app_char by done. rewrite Hsw.
  rewrite IH by done. done.
Qed.

End StringFacts.

(** ** Permission names *)

(** Where neither the app label nor the object name, in lower case,
    contains ['moderate'], line 73 yields the change permission of the
    model. *)
Lemma change_perm_plain (self : MonitorAdmin) :
  occurs "moderate" (lower (app_label (opts self))) = false →
  occurs "moderate" (lower (object_name (opts self))) = false →
  change_perm self =
  lower (app_label (opts self)) ++ ".change_" ++ lower (object_name (opts self)).
Proof.
  intros HA HO. unfold change_perm, mod_perm, replace.
  change (".moderate_" ++ lower (object_name (opts self)))
    with (String "." ("moderate_" ++ lower (object_name (opts self)))).
  rewrite replace_from_app by done.
  f_equal. simpl.
  change ("" ++ lower (object_name (opts self)))
    with (lower (object_name (opts self))).
  by rewrite replace_from_no_occurrence.
Qed.

(** ** [MonitorAdmin.__init__] *)

(** C10 (amended).  Constructing a [MonitorAdmin], for a monitored model
    or not, sets [list_filter] to the list of the primary-key attribute
    name followed by the class-declared [list_filter], and sets
    [list_display] to the list that the constructor of the parent class
    has left, followed by ['get_status_display'] as the last entry: that
    is the class-declared [list_display] when it holds ['action_checkbox']
    or [actions] is [None], and the class-declared [list_display] with
    ['action_checkbox'] in front otherwise. *)
Theorem MonitorAdmin_init_lists (cls : AdminClass) (M : ModelClass)
    (site : AdminSite) :
  let self := __init__ cls M site in
  let declared := items (cls_list_display cls) in
  model self = model_id M ∧
  opts self = _meta M ∧
  list_filter self =
    PyList (pk_attname (_meta M) :: items (cls_list_filter cls)) ∧
  ("action_checkbox" ∈ declared ∨ cls_actions cls = None →
     list_display self = PyList (declared ++ ["get_status_display"])) ∧
  ("action_checkbox" ∉ declared → cls_actions cls ≠ None →
     list_display self =
     PyList ("action_checkbox" :: declared ++ ["get_status_display"])) ∧
  last (items (list_display self)) = Some "get_status_display".
Proof.
  intros self declared. subst self declared.
  unfold __init__, ModelAdmin_init, contains. simpl.
  split_and!; [done..| | |].
  - intros [Hin|Hnone].
    + by rewrite bool_decide_eq_true_2.
    + rewrite (bool_decide_eq_false_2 (cls_actions cls ≠ None)) by (by intros []).
      by rewrite andb_false_r.
  - intros Hin Hact.
    by rewrite bool_decide_eq_false_2, bool_decide_eq_true_2.
  - by rewrite last_snoc.
Qed.

(** C10, as stated, fails for a class that declares
    [list_display = ('name',)] and leaves [actions] at its default: the
    constructor of the parent class, run at line 27, has put
    ['action_checkbox'] in front before line 29 appends. *)
Lemma MonitorAdmin_init_counterexample :
  cls_list_display Sample.AuthorAdmin = PyTuple ["name"] ∧
  items (list_display (__init__ Sample.AuthorAdmin Sample.Author Sample.site)) =
    ["action_checkbox"; "name"; "get_status_display"] ∧
  items (list_display (__init__ Sample.AuthorAdmin Sample.Author Sample.site)) ≠
    (items (cls_list_display Sample.AuthorAdmin) ++ ["get_status_display"])%list.
Proof. split_and!; done. Qed.

(** ** [MonitorAdmin.get_readonly_fields] *)

(** Which branch of [get_readonly_fields] is taken. *)
Lemma get_readonly_fields_cases (conf : Conf) (queue : gmap ModelId QueueEntry)
    (self : MonitorAdmin) (request : HttpRequest) (obj : option Obj) :
  let protects :=
    is_Some (queue !! model self) ∧
    ∃ o, obj = Some o ∧ status o = APPROVED_STATUS conf in
  (protects →
     get_readonly_fields conf queue self request obj =
     add (readonly_fields self) (protected_fields self)) ∧
  (¬ protects →
     get_readonly_fields conf queue self request obj = Ok (readonly_fields self)).
Proof.
  unfold get_readonly_fields, is_monitored, model_from_queue.
  split.
  - intros [Hq (o & -> & Ho)].
    by rewrite !bool_decide_eq_true_2.
  - intros Hn.
    destruct (bool_decide_reflect (is_Some (queue !! model self))) as [Hq|]; [|done].
    destruct obj as [o|]; [|done]. simpl.
    case_bool_decide as Ho; [|done].
    destruct Hn. eauto.
Qed.

(** Where the two attributes are sequences of one kind, line 64 yields the
    readonly fields followed by the protected fields. *)
Lemma add_same_kind (a b : Seq) :
  (∃ xs ys, a = PyTuple xs ∧ b = PyTuple ys) ∨
  (∃ xs ys, a = PyList xs ∧ b = PyList ys) →
  ∃ c, add a b = Ok c ∧ items c = (items a ++ items b)%list.
Proof.
  intros [(xs & ys & -> & ->)|(xs & ys & -> & ->)]; simpl; eauto.
Qed.

(** C9.  For an approved object of a monitored model, an admin class that
    declares [protected_fields = ['name']], a list, and leaves
    [readonly_fields] at Django's default [()], a tuple, gets a
    [TypeError] from line 64 and no field list at all; with
    [protected_fields = ('name',)] and [readonly_fields = ('id',)] the same
    call returns [('id', 'name')], and on the add form the declared
    readonly fields. *)
Theorem get_readonly_fields_tuple_plus_list :
  is_monitored Sample.queue Sample.list_author_admin = true ∧
  status Sample.author_1 = APPROVED_STATUS Sample.conf ∧
  readonly_fields Sample.list_author_admin = PyTuple [] ∧
  protected_fields Sample.list_author_admin = PyList ["name"] ∧
  get_readonly_fields Sample.conf Sample.queue Sample.list_author_admin
    Sample.superuser_request (Some Sample.author_1) =
    Raise (TypeError "tuple" "list") ∧
  get_readonly_fields Sample.conf Sample.queue Sample.author_admin
    Sample.superuser_request (Some Sample.author_1) =
    Ok (PyTuple ["id"; "name"]) ∧
  get_readonly_fields Sample.conf Sample.queue Sample.list_author_admin
    Sample.superuser_request None = Ok (PyTuple []).
Proof. split_and!; reflexivity. Qed.

(** ** [MonitorAdmin.has_delete_permission] *)

(** Lines 113-118 do what the method is meant to do, once they are given
    the queue entry of the model: false when the entry has
    [can_delete_approved] false and the object's monitor entry is approved,
    and the answer of the parent class in every other case. *)
Lemma has_delete_permission_113_118_spec (conf : Conf)
    (get_monitor_entry : Obj → MonitorEntry)
    (ModelAdmin_has_delete_permission : MonitorAdmin → HttpRequest → option Obj → bool)
    (model : option QueueEntry)
    (self : MonitorAdmin) (request : HttpRequest) (obj : option Obj) :
  let denied :=
    ∃ entry o,
      model = Some entry ∧
      can_delete_approved entry = false ∧
      obj = Some o ∧
      entry_status (get_monitor_entry o) = APPROVED_STATUS conf in
  (denied →
     has_delete_permission_113_118 conf get_monitor_entry
       ModelAdmin_has_delete_permission model self request obj = false) ∧
  (¬ denied →
     has_delete_permission_113_118 conf get_monitor_entry
       ModelAdmin_has_delete_permission model self request obj =
     ModelAdmin_has_delete_permission self request obj).
Proof.
  unfold has_delete_permission_113_118, is_approved. split.
  - intros (entry & o & -> & -> & -> & Ho). simpl.
    by rewrite bool_decide_eq_true_2.
  - intros Hn.
    destruct model as [entry|]; [|done].
    destruct (can_delete_approved entry) eqn:Hc; [done|].
    destruct obj as [o|]; [|done]. simpl.
    case_bool_decide as Ho; [|done].
    destruct Hn. eauto 10.
Qed.

(** C4.  Every call of [has_delete_permission] ends at line 112 with an
    [AttributeError]: [self.opts] has no attribute [model].  Neither
    [False] nor the answer of the parent class is returned, whatever the
    queue, the object and the actor are; [is_monitored], line 59, makes the
    same lookup with [self.model]. *)
Theorem has_delete_permission_raises (conf : Conf)
    (queue : gmap ModelId QueueEntry) (get_monitor_entry : Obj → MonitorEntry)
    (ModelAdmin_has_delete_permission : MonitorAdmin → HttpRequest → option Obj → bool)
    (self : MonitorAdmin) (request : HttpRequest) (obj : option Obj) :
  has_delete_permission conf queue get_monitor_entry
    ModelAdmin_has_delete_permission self request obj =
  Raise (AttributeError "model").
Proof. reflexivity. Qed.

(** ** Permission names and [MonitorAdmin.get_actions] *)

(** The moderate permission that [get_actions] and
    [has_moderate_permission] check is [A.moderate_O] in lower case. *)
Lemma has_moderate_permission_name (self : MonitorAdmin) (request : HttpRequest) :
  has_moderate_permission self request =
  has_perm (user request)
    (lower (app_label (opts self)) ++ ".moderate_" ++ lower (object_name (opts self))).
Proof. reflexivity. Qed.

(** C8.  For the model [testapp.ModeratedPost] the moderate permission
    checked is [testapp.moderate_moderatedpost], but the name computed for
    the change permission is [testapp.change_changedpost]: the replacement
    of line 73 also rewrites the ['moderate'] inside the object name, so it
    is not [testapp.change_moderatedpost]. *)
Theorem change_perm_rewrites_object_name :
  mod_perm Sample.moderated_post_admin = "testapp.moderate_moderatedpost" ∧
  change_perm Sample.moderated_post_admin = "testapp.change_changedpost" ∧
  change_perm Sample.moderated_post_admin ≠
    lower (app_label (opts Sample.moderated_post_admin)) ++ ".change_" ++
    lower (object_name (opts Sample.moderated_post_admin)).
Proof. by vm_compute. Qed.

Section GetActions.

Context (approve_selected challenge_selected reset_to_pending : Callable).
Context (ModelAdmin_get_actions : MonitorAdmin → HttpRequest → gmap string Action).

Local Abbreviation actions_of :=
  (get_actions approve_selected challenge_selected reset_to_pending
     ModelAdmin_get_actions).

(** [get_actions] only adds entries: what the parent class returns stays. *)
Lemma get_actions_keeps_inherited self request name :
  is_Some (ModelAdmin_get_actions self request !! name) →
  is_Some (actions_of self request !! name).
Proof.
  intros Hin. unfold get_actions.
  repeat case_match; rewrite ?lookup_insert_is_Some'; eauto.
Qed.

(** Membership of the three names in the result. *)
Lemma get_actions_lookup self request :
  let inherited := ModelAdmin_get_actions self request in
  let may_moderate := has_perm (user request) (mod_perm self) in
  let may_change := has_perm (user request) (change_perm self) in
  (is_Some (actions_of self request !! "approve_selected") ↔
     may_moderate = true ∨ is_Some (inherited !! "approve_selected")) ∧
  (is_Some (actions_of self request !! "challenge_selected") ↔
     may_moderate = true ∨ is_Some (inherited !! "challenge_selected")) ∧
  (is_Some (actions_of self request !! "reset_to_pending") ↔
     may_change = true ∨ is_Some (inherited !! "reset_to_pending")).
Proof.
  unfold get_actions. simpl.
  destruct (has_perm (user request) (mod_perm self));
    destruct (has_perm (user request) (change_perm self));
    repeat (rewrite lookup_insert_eq || rewrite lookup_insert_ne by done);
    split_and!; (split; [eauto | intros [?|?]; eauto; discriminate]).
Qed.

(** C5 (amended).  [get_actions] adds to the actions inherited from the
    parent class and removes none of them.  When the inherited actions do
    not hold the name, [approve_selected] is in the result exactly when the
    actor holds the moderate permission of the type, and so is
    [challenge_selected]; and, for a model whose app label and object name
    in lower case do not contain ['moderate'], [reset_to_pending] is in the
    result exactly when the actor holds the change permission of the type;
    the moderate permission plays no part in the latter. *)
Theorem get_actions_membership self request :
  let inherited := ModelAdmin_get_actions self request in
  let A := lower (app_label (opts self)) in
  let O := lower (object_name (opts self)) in
  (∀ name, is_Some (inherited !! name) →
           is_Some (actions_of self request !! name)) ∧
  (inherited !! "approve_selected" = None →
     (is_Some (actions_of self request !! "approve_selected") ↔
      has_perm (user request) (A ++ ".moderate_" ++ O) = true)) ∧
  (inherited !! "challenge_selected" = None →
     (is_Some (actions_of self request !! "challenge_selected") ↔
      has_perm (user request) (A ++ ".moderate_" ++ O) = true)) ∧
  (inherited !! "reset_to_pending" = None →
   occurs "moderate" A = false →
   occurs "moderate" O = false →
     (is_Some (actions_of self request !! "reset_to_pending") ↔
      has_perm (user request) (A ++ ".change_" ++ O) = true)).
Proof.
  intros inherited A O.
  pose proof (get_actions_lookup self request) as (H1 & H2 & H3).
  fold inherited in H1, H2, H3.
  assert (Hnone : ∀ (P : Prop) (x : option Action), x = None → (P ∨ is_Some x ↔ P)).
  { intros P x ->. split; [intros [?|[? [=]]]; done | by left]. }
  split_and!.
  - intros name. apply get_actions_keeps_inherited.
  - intros Ha. rewrite H1. by apply Hnone.
  - intros Hc. rewrite H2. by apply Hnone.
  - intros Hr HA HO. rewrite H3, change_perm_plain by done. by apply Hnone.
Qed.

End GetActions.

(** C5, as stated, fails where the parent class already offers the action:
    an action named [approve_selected] among the inherited ones, declared
    for the admin site or the admin class, is in the result for an actor
    who holds no permission at all. *)
Lemma get_actions_inherited_counterexample :
  ¬ (∀ (approve_selected challenge_selected reset_to_pending : Callable)
       (ModelAdmin_get_actions : MonitorAdmin → HttpRequest → gmap string Action)
       (self : MonitorAdmin) (request : HttpRequest),
       is_Some (get_actions approve_selected challenge_selected reset_to_pending
                  ModelAdmin_get_actions self request !! "approve_selected") ↔
       has_perm (user request) (mod_perm self) = true).
Proof.
  intros H.
  pose (f := {| func_name := "approve_selected"; short_description := None |}).
  pose (inherited := λ (_ : MonitorAdmin) (_ : HttpRequest),
          ({["approve_selected" := (f, "approve_selected", "approve selected")]}
             : gmap string Action)).
  pose (request := {| GET := ∅; user := {| has_perm := λ _, false |} |}).
  destruct (H f f f inherited Sample.moderated_post_admin request) as [H1 _].
  discriminate H1.
  unfold get_actions. simpl. unfold inherited.
  rewrite lookup_singleton_eq. eauto.
Qed.

(** ** [MonitorAdmin.queryset] *)

Section Queryset.

Context (conf : Conf).
Context (ModelAdmin_queryset : MonitorAdmin → HttpRequest → QuerySet).

Implicit Types (self : MonitorAdmin) (request : HttpRequest) (d : QueryDict.t).

(** A parameter with a true value is a key of the dict, so line 46 finds
    it. *)
Lemma delitem_truthy d key :
  truthy (QueryDict.get d key) = true →
  QueryDict.delitem (QueryDict.copy d) key = Ok (delete key d).
Proof.
  unfold QueryDict.get, QueryDict.delitem, QueryDict.copy.
  by destruct (d !! key).
Qed.

(** [queryset] never raises; the request it leaves behind has lost
    [status] when the value was true, and is the same otherwise. *)
Lemma queryset_returns self request :
  let param := QueryDict.get (GET request) "status" in
  ∃ qs, queryset conf ModelAdmin_queryset self request =
        Ok (qs, if truthy param
                then set_GET request (delete "status" (GET request))
                else request).
Proof.
  intros param. unfold queryset. fold param.
  destruct (truthy param) eqn:Ht.
  - rewrite delitem_truthy by done. simpl. eauto.
  - simpl. eauto.
Qed.

(** When the value of [status] is true, the key is gone afterwards and
    nothing else about the request has changed. *)
Lemma queryset_removes_status self request qs request' :
  truthy (QueryDict.get (GET request) "status") = true →
  queryset conf ModelAdmin_queryset self request = Ok (qs, request') →
  GET request' !! "status" = None ∧
  (∀ key, key ≠ "status" → GET request' !! key = GET request !! key) ∧
  user request' = user request.
Proof.
  intros Ht Hq. destruct (queryset_returns self request) as [qs0 Hq0].
  rewrite Hq0, Ht in Hq. injection Hq as _ <-. simpl.
  split_and!; [apply lookup_delete_eq | | done].
  intros key Hkey. by apply lookup_delete_ne.
Qed.

(** The rows of one status, as the narrowing methods yield them. *)
Lemma by_status_elem_of (code : string) (qs : QuerySet) (o : Obj) :
  o ∈ by_status code qs ↔ o ∈ qs ∧ status o = code.
Proof. unfold by_status. rewrite list_elem_of_filter. tauto. Qed.

(** C6.  With three different, non-empty status codes, [queryset] returns
    without an error for every request; when the [status] parameter is the
    code of a status, the result holds exactly the rows of the inherited
    queryset that have this status; when the parameter is absent or is none
    of the three codes, the result is the inherited queryset itself. *)
Theorem queryset_by_status self request :
  status_codes_ok conf →
  let param := QueryDict.get (GET request) "status" in
  let inherited := ModelAdmin_queryset self request in
  ∃ qs request',
    queryset conf ModelAdmin_queryset self request = Ok (qs, request') ∧
    (∀ code,
       code ∈ [PENDING_STATUS conf; CHALLENGED_STATUS conf; APPROVED_STATUS conf] →
       param = Some code →
       qs = by_status code inherited ∧
       ∀ o, o ∈ qs ↔ o ∈ inherited ∧ status o = code) ∧
    (param = None ∨
     (∀ code,
        code ∈ [PENDING_STATUS conf; CHALLENGED_STATUS conf; APPROVED_STATUS conf] →
        param ≠ Some code) →
     qs = inherited).
Proof.
  intros (Hpc & Hpa & Hca & Hp & Hc & Ha) param inherited.
  destruct (queryset_returns self request) as [qs Hq].
  exists qs, (if truthy (QueryDict.get (GET request) "status")
              then set_GET request (delete "status" (GET request))
              else request).
  split; [exact Hq|].
  unfold queryset in Hq. fold param inherited in Hq.
  assert (Hqs : qs =
    if truthy param && bool_decide (param = Some (PENDING_STATUS conf))
    then pending conf inherited
    else if truthy param && bool_decide (param = Some (CHALLENGED_STATUS conf))
    then challenged conf inherited
    else if truthy param && bool_decide (param = Some (APPROVED_STATUS conf))
    then approved conf inherited
    else inherited).
  { destruct (truthy param) eqn:Ht.
    - rewrite delitem_truthy in Hq by done. simpl in Hq. by injection Hq as <-.
    - simpl in Hq. by injection Hq as <-. }
  clear Hq. split.
  - intros code Hcode Hparam.
    assert (Henough : qs = by_status code inherited).
    { rewrite Hqs, Hparam. unfold pending, challenged, approved.
      apply elem_of_cons in Hcode as [->|Hcode];
        [|apply elem_of_cons in Hcode as [->|Hcode];
          [|apply list_elem_of_singleton in Hcode as ->]].
      - simpl. apply String.eqb_neq in Hp. rewrite Hp. simpl.
        by rewrite bool_decide_eq_true_2.
      - simpl. apply String.eqb_neq in Hc. rewrite Hc. simpl.
        rewrite bool_decide_eq_false_2 by congruence.
        by rewrite bool_decide_eq_true_2.
      - simpl. apply String.eqb_neq in Ha. rewrite Ha. simpl.
        rewrite !bool_decide_eq_false_2 by congruence.
        by rewrite bool_decide_eq_true_2. }
    split; [done|]. intros o. rewrite Henough. apply by_status_elem_of.
  - intros [Hnone|Hother].
    + by rewrite Hqs, Hnone.
    + rewrite Hqs.
      rewrite !bool_decide_eq_false_2, !andb_false_r; [done|..];
        apply Hother; set_solver.
Qed.

(** C7.  A request whose query string gives [status] with an empty value
    ([?status=]) has the key [status] in its parameters, and still has it
    after [queryset]: the test of line 44 is on the value, which is false
    for the empty string, so lines 45-47 are skipped. *)
Theorem queryset_keeps_blank_status self (actor : User) :
  let request := {| GET := {["status" := [""]]}; user := actor |} in
  ∃ qs request',
    queryset conf ModelAdmin_queryset self request = Ok (qs, request') ∧
    is_Some (GET request !! "status") ∧
    GET request' !! "status" = Some [""].
Proof.
  intros request. exists (ModelAdmin_queryset self request), request.
  split_and!; [done | by eexists | done].
Qed.

End Queryset.

(** ** The transition engine *)

Section EngineFacts.

Import Engine.

Implicit Types (reg : Registry) (st : Store) (k j : Key) (target : Status).

(** Writing a status leaves the parent reference of every row alone. *)
Lemma set_status_parent_ptr st k row target j :
  st !! k = Some row →
  parent_ptr <$> <[k := set_status row target]> st !! j = parent_ptr <$> st !! j.
Proof.
  intros Hrow. destruct (decide (k = j)) as [<-|Hne].
  - by rewrite lookup_insert_eq, Hrow.
  - by rewrite lookup_insert_ne.
Qed.

(** What a successful transition does to the store: it keeps all parent
    references, gives the instance the target status, and leaves every
    row with its old status or the target status. *)
Lemma transition_inv depth reg st k target st' :
  transition depth reg st k target = inr st' →
  (∀ j, parent_ptr <$> st' !! j = parent_ptr <$> st !! j) ∧
  status_of st' k = Some target ∧
  (∀ j, status_of st' j = status_of st j ∨ status_of st' j = Some target).
Proof.
  revert st k st'. induction depth as [|depth IH]; intros st k st' H; [done|].
  simpl in H.
  destruct (reg !! k.1) as [cfg|]; [|done].
  destruct (st !! k) as [row|] eqn:Hrow; [|done].
  assert (Hself : status_of (<[k := set_status row target]> st) k = Some target).
  { unfold status_of. by rewrite lookup_insert_eq. }
  assert (Hother : ∀ j, status_of (<[k := set_status row target]> st) j = status_of st j
                        ∨ status_of (<[k := set_status row target]> st) j = Some target).
  { intros j. destruct (decide (k = j)) as [<-|Hne]; [by right|left].
    unfold status_of. by rewrite lookup_insert_ne. }
  destruct (cascade_parent cfg) as [p|].
  - destruct (parent_ptr row) as [ppk|]; [|done].
    destruct (transition depth reg _ (p, ppk) target) as [[]|st2] eqn:Hrec; try done.
    injection H as <-. apply IH in Hrec as (Hptr & _ & Hst).
    split_and!.
    + intros j. rewrite Hptr. by apply set_status_parent_ptr.
    + destruct (Hst k) as [Hk|Hk]; rewrite Hk; [exact Hself|done].
    + intros j. destruct (Hst j) as [Hj|Hj]; rewrite Hj; [apply Hother | by right].
  - injection H as <-. split_and!; [|done..].
    intros j. by apply set_status_parent_ptr.
Qed.

(** The parent of an instance depends on the store through the parent
    reference only. *)
Lemma parent_of_ext reg st st' k :
  parent_ptr <$> st' !! k = parent_ptr <$> st !! k →
  parent_of reg st' k = parent_of reg st k.
Proof.
  intros H. unfold parent_of.
  destruct (reg !! k.1) as [cfg|]; [|done]. simpl.
  destruct (cascade_parent cfg) as [p|]; [|done]. simpl.
  destruct (st' !! k) as [r'|], (st !! k) as [r|]; simpl in *; try done.
  by injection H as ->.
Qed.

Lemma ancestor_ext reg st st' k a :
  (∀ j, parent_ptr <$> st' !! j = parent_ptr <$> st !! j) →
  ancestor reg st k a → ancestor reg st' k a.
Proof.
  intros Hptr. unfold ancestor. apply rtc_subrel.
  intros x y Hxy. by rewrite (parent_of_ext reg st st').
Qed.

(** The parent that [parent_of] names is the one the engine moves to. *)
Lemma parent_of_Some reg st k P :
  parent_of reg st k = Some P →
  ∃ cfg row ppk,
    reg !! k.1 = Some cfg ∧ st !! k = Some row ∧
    cascade_parent cfg = Some P.1 ∧ parent_ptr row = Some ppk ∧ P = (P.1, ppk).
Proof.
  unfold parent_of. intros H.
  destruct (reg !! k.1) as [cfg|] eqn:Hcfg; [|done]. simpl in H.
  destruct (cascade_parent cfg) as [p|] eqn:Hp; [|done]. simpl in H.
  destruct (st !! k) as [row|] eqn:Hrow; [|done]. simpl in H.
  destruct (parent_ptr row) as [ppk|] eqn:Hppk; [|done]. simpl in H.
  injection H as <-. by exists cfg, row, ppk.
Qed.

(** The step of a successful transition that moves to the parent. *)
Lemma transition_parent depth reg st k target st' P :
  transition (S depth) reg st k target = inr st' →
  parent_of reg st k = Some P →
  ∃ row, st !! k = Some row ∧
         transition depth reg (<[k := set_status row target]> st) P target = inr st'.
Proof.
  intros H (cfg & row & ppk & Hcfg & Hrow & Hp & Hppk & HP)%parent_of_Some.
  simpl in H. rewrite Hcfg, Hrow, Hp, Hppk in H. rewrite HP.
  exists row. split; [done|].
  by destruct (transition depth reg _ (P.1, ppk) target) as [[]|st2].
Qed.

(** Every instance on the chain ends in the target status. *)
Lemma transition_ancestors depth reg st k target st' a :
  transition depth reg st k target = inr st' →
  ancestor reg st k a →
  status_of st' a = Some target.
Proof.
  revert st k st'. induction depth as [|depth IH]; intros st k st' H Ha; [done|].
  apply rtc_inv in Ha as [<-|(P & HP & Ha)].
  - by apply transition_inv in H as (_ & ? & _).
  - destruct (transition_parent _ _ _ _ _ _ _ H HP) as (row & Hrow & Hrec).
    apply (IH _ _ _ Hrec).
    apply (ancestor_ext reg st); [|done].
    intros j. by apply set_status_parent_ptr.
Qed.

(** A successful transition has reached a type without cascade parent. *)
Lemma transition_reaches_root depth reg st k target st' :
  transition depth reg st k target = inr st' →
  ∃ root cfg,
    ancestor reg st k root ∧ reg !! root.1 = Some cfg ∧ cascade_parent cfg = None.
Proof.
  revert st k st'. induction depth as [|depth IH]; intros st k st' H; [done|].
  pose proof H as H0. simpl in H.
  destruct (reg !! k.1) as [cfg|] eqn:Hcfg; [|done].
  destruct (st !! k) as [row|] eqn:Hrow; [|done].
  destruct (cascade_parent cfg) as [p|] eqn:Hp.
  - destruct (parent_ptr row) as [ppk|] eqn:Hppk; [|done].
    assert (HP : parent_of reg st k = Some (p, ppk)).
    { unfold parent_of. rewrite Hcfg. simpl. rewrite Hp. simpl.
      rewrite Hrow. simpl. by rewrite Hppk. }
    destruct (transition_parent _ _ _ _ _ _ _ H0 HP) as (row' & Hrow' & Hrec).
    apply IH in Hrec as (root & cfg' & Hanc & Hroot & Hnone).
    exists root, cfg'. split_and!; [|done..].
    eapply rtc_l; [exact HP|].
    apply (ancestor_ext reg (<[k:=set_status row' target]> st)); [|done].
    intros j. symmetry. by apply set_status_parent_ptr.
  - exists k, cfg. split_and!; [apply rtc_refl|done..].
Qed.

(** C2.  After a transition of [k] to [target] has gone through, [k] has
    the target status, the parent instance of [k] (where the type of [k]
    has a cascade parent) has the same status as [k], every instance
    further up the chain has the target status as well, and the chain that
    was walked ends at a type without cascade parent. *)
Theorem cascade_invariant depth reg st k target st' :
  transition depth reg st k target = inr st' →
  status_of st' k = Some target ∧
  (∀ P, parent_of reg st k = Some P → status_of st' P = status_of st' k) ∧
  (∀ a, ancestor reg st k a → status_of st' a = Some target) ∧
  (∃ root cfg,
     ancestor reg st k root ∧ reg !! root.1 = Some cfg ∧ cascade_parent cfg = None).
Proof.
  intros H.
  assert (Hall : ∀ a, ancestor reg st k a → status_of st' a = Some target)
    by (intros a Ha; eapply transition_ancestors; eassumption).
  split_and!; [| |done|by eapply transition_reaches_root].
  - apply Hall, rtc_refl.
  - intros P HP. rewrite (Hall k) by apply rtc_refl.
    apply Hall. by apply rtc_once.
Qed.

(** [chain_ok] looks at the store through the parent references only. *)
Lemma chain_ok_ext depth reg st st' k :
  (∀ j, parent_ptr <$> st' !! j = parent_ptr <$> st !! j) →
  chain_ok depth reg st' k = chain_ok depth reg st k.
Proof.
  intros Hptr. revert k. induction depth as [|depth IH]; intros k; [done|].
  simpl. destruct (reg !! k.1) as [cfg|]; [|done].
  specialize (Hptr k).
  destruct (st' !! k) as [r'|], (st !! k) as [r|]; simpl in *; try done.
  injection Hptr as ->.
  destruct (cascade_parent cfg); [|done].
  destruct (parent_ptr r); [|done]. apply IH.
Qed.

(** The transition goes through exactly when the chain can be walked
    within the bound. *)
Lemma transition_succeeds_iff depth reg st k target :
  (∃ st', transition depth reg st k target = inr st') ↔
  chain_ok depth reg st k = true.
Proof.
  revert st k. induction depth as [|depth IH]; intros st k.
  { simpl. split; [by intros [? ?]|done]. }
  simpl.
  destruct (reg !! k.1) as [cfg|]; [|split; [by intros [? ?]|done]].
  destruct (st !! k) as [row|] eqn:Hrow; [|split; [by intros [? ?]|done]].
  destruct (cascade_parent cfg) as [p|]; [|split; eauto].
  destruct (parent_ptr row) as [ppk|]; [|split; [by intros [? ?]|done]].
  rewrite <- (chain_ok_ext depth reg st (<[k := set_status row target]> st))
    by (intros j; by apply set_status_parent_ptr).
  rewrite <- (IH _ _). split.
  - intros [st' H].
    destruct (transition depth reg _ (p, ppk) target) as [[]|st2]; try done. eauto.
  - intros [st' ->]. eauto.
Qed.

End EngineFacts.

(** ** Creation and auto-approval *)

Section CreateFacts.

Import Engine.

(** C3.  For a registered type, an instance created by an actor without
    the moderate permission of the type is persisted with status
    [PENDING]; created by an actor who holds it, the instance has status
    [APPROVED] as soon as the creation has gone through, which it does
    whenever the cascade chain of the new instance can be walked. *)
Theorem create_status (depth : nat) (reg : Registry) (actor : Actor) (st : Store)
    (k : Key) (parent : option nat) (cfg : ModeratedTypeConfig) :
  reg !! k.1 = Some cfg →
  let may_moderate := has_permission actor (permission_name "moderate" k.1) in
  let persisted := <[k := {| status := PENDING; parent_ptr := parent |}]> st in
  (may_moderate = false →
     ∃ st', create depth reg actor st k parent = inr st' ∧
            status_of st' k = Some PENDING) ∧
  (may_moderate = true → chain_ok depth reg persisted k = true →
     ∃ st', create depth reg actor st k parent = inr st' ∧
            status_of st' k = Some APPROVED) ∧
  (∀ st', create depth reg actor st k parent = inr st' →
          status_of st' k = Some (if may_moderate then APPROVED else PENDING)).
Proof.
  intros Hreg may_moderate persisted. unfold create. rewrite Hreg.
  fold may_moderate persisted.
  assert (Hp : status_of persisted k = Some PENDING).
  { unfold status_of, persisted. by rewrite lookup_insert_eq. }
  split_and!.
  - intros ->. eauto.
  - intros -> Hok.
    apply (transition_succeeds_iff _ _ _ _ APPROVED) in Hok as [st' Hst'].
    exists st'. split; [exact Hst'|].
    by apply transition_inv in Hst' as (_ & ? & _).
  - intros st'. destruct may_moderate.
    + intros Hst'. by apply transition_inv in Hst' as (_ & ? & _).
    + by intros [= <-].
Qed.

End CreateFacts.

(** ** The default manager in [tests.py] *)

Section DefaultManager.

Import Engine Tests.

(** A row fetched by [get] is one of the rows the manager yields. *)
Lemma assert_get_elem_of (objects : Manager) (table : list Row) (n : nat)
    (attr : Status → bool) :
  assert_get objects table n attr = true →
  ∃ r, r ∈ objects table ∧ row_pk r = n ∧ attr (row_status r) = true.
Proof.
  unfold assert_get, get. intros H.
  destruct (filter _ (objects table)) as [|r [|]] eqn:Hf; try done.
  assert (Hr : r ∈ filter (λ r, row_pk r = n) (objects table))
    by (rewrite Hf; apply list_elem_of_here).
  apply list_elem_of_filter in Hr as [Hpk Hin]. eauto.
Qed.

(** What a status-narrowing manager yields. *)
Lemma status_manager_elem_of (visible : Status → bool) (table : list Row) (r : Row) :
  r ∈ status_manager visible table ↔ visible (row_status r) = true ∧ r ∈ table.
Proof.
  unfold status_manager.
  exact (list_elem_of_filter (λ r, visible (row_status r) = true) table r).
Qed.

(** A status that a test fetches through the manager is one the manager
    lets through. *)
Lemma assert_get_visible (visible : Status → bool) (table : list Row) (n : nat)
    (attr : Status → bool) :
  assert_get (status_manager visible) table n attr = true →
  ∃ s, attr s = true ∧ visible s = true.
Proof.
  intros (r & Hin & _ & Hattr)%assert_get_elem_of.
  apply status_manager_elem_of in Hin as [Hvis _]. eauto.
Qed.

(** The accessor of the specification cannot pass lines 144-146, whatever
    the table holds. *)
Lemma approved_only_fails_test_2 (table : list Row) :
  test_2_moderation_144_146 approved_only table = false.
Proof.
  apply not_true_is_false. unfold test_2_moderation_144_146.
  intros [[_ H]%andb_true_iff _]%andb_true_iff.
  apply assert_get_visible in H as (s & Hp & Ha).
  by destruct s.
Qed.



End DefaultManager.

(** ** The theorems at the sample data *)

Section Witnesses.

Import Sample.

(** C10 at the author admin class. *)
Lemma MonitorAdmin_init_lists_witness :
  ("action_checkbox" ∉ items (cls_list_display AuthorAdmin)) ∧
  (cls_actions AuthorAdmin ≠ None) ∧
  list_display (__init__ AuthorAdmin Author site) =
    PyList ["action_checkbox"; "name"; "get_status_display"].
Proof.
  assert (H1 : "action_checkbox" ∉ items (cls_list_display AuthorAdmin)).
  { intros H. apply list_elem_of_singleton in H. discriminate H. }
  assert (H2 : cls_actions AuthorAdmin ≠ None) by discriminate.
  split_and!; [exact H1 | exact H2 |].
  destruct (MonitorAdmin_init_lists AuthorAdmin Author site)
    as (_ & _ & _ & _ & Hd & _).
  exact (Hd H1 H2).
Defined.

(** C5 at the user [adder], who may change authors and may not moderate:
    only [reset_to_pending] is offered. *)
Lemma get_actions_membership_witness :
  let actions :=
    get_actions (action "approve_selected") (action "challenge_selected")
      (action "reset_to_pending") ModelAdmin_get_actions author_admin
      challenged_request in
  has_perm adder "testapp.moderate_author" = false ∧
  has_perm adder "testapp.change_author" = true ∧
  ¬ is_Some (actions !! "approve_selected") ∧
  ¬ is_Some (actions !! "challenge_selected") ∧
  is_Some (actions !! "reset_to_pending").
Proof.
  intros actions.
  destruct (get_actions_membership (action "approve_selected")
              (action "challenge_selected") (action "reset_to_pending")
              ModelAdmin_get_actions author_admin challenged_request)
    as (_ & Ha & Hc & Hr).
  specialize (Ha eq_refl). specialize (Hc eq_refl).
  specialize (Hr eq_refl eq_refl eq_refl).
  split_and!; [reflexivity | reflexivity | | | ].
  - intros H. apply Ha in H. discriminate H.
  - intros H. apply Hc in H. discriminate H.
  - apply Hr. reflexivity.
Defined.

(** C6 at [?status=CH]: author 2, the challenged one, is what is left. *)
Lemma queryset_by_status_witness :
  status_codes_ok conf ∧
  ∃ request',
    queryset conf ModelAdmin_queryset author_admin challenged_request =
    Ok ([author_2], request').
Proof.
  assert (Hok : status_codes_ok conf) by (by split_and!).
  split; [exact Hok|].
  destruct (queryset_by_status conf ModelAdmin_queryset author_admin
              challenged_request Hok) as (qs & request' & Hq & Hcode & _).
  exists request'. rewrite Hq.
  destruct (Hcode "CH") as [-> _]; [|reflexivity|reflexivity].
  apply list_elem_of_further, list_elem_of_here.
Defined.

(** C2 at [eb1.approve()] of [test_3_moderate_parents_from_shell]. *)
Lemma cascade_invariant_witness :
  ∃ st',
    Engine.approve 2 registry store ("EBook", 1) = inr st' ∧
    Engine.parent_of registry store ("EBook", 1) = Some ("Book", 1) ∧
    Engine.status_of st' ("EBook", 1) = Some Engine.APPROVED ∧
    Engine.status_of st' ("Book", 1) = Engine.status_of st' ("EBook", 1).
Proof.
  destruct (Engine.approve 2 registry store ("EBook", 1)) as [e|st'] eqn:H;
    [by vm_compute in H|].
  exists st'.
  destruct (cascade_invariant 2 registry store ("EBook", 1) Engine.APPROVED st' H)
    as (Hself & Hparent & _).
  split_and!; [reflexivity | reflexivity | exact Hself |].
  apply Hparent. reflexivity.
Defined.

(** C3 at the creation of [EBook] 1 by the moderator. *)
Lemma create_status_witness :
  ∃ st',
    Engine.create 2 registry moder book_store ("EBook", 1) (Some 1) = inr st' ∧
    Engine.status_of st' ("EBook", 1) = Some Engine.APPROVED.
Proof.
  destruct (create_status 2 registry moder book_store ("EBook", 1) (Some 1)
              _ eq_refl) as (_ & Hmod & _).
  apply Hmod; reflexivity.
Defined.


End Witnesses.

(* ===================================================================== *)
(** * Part III.  Further properties of the code                           *)
(* ===================================================================== *)

(** ** [str.replace] with ['moderate'] and ['change'] *)

Section ReplaceFacts.

Implicit Types (old new p a b s rest : string) (c : ascii) (skip : nat).

Lemma string_app_cons x a b : String x a ++ b = String x (a ++ b).
Proof. reflexivity. Qed.

Lemma string_app_assoc a b s : (a ++ b) ++ s = a ++ (b ++ s).
Proof.
  induction a as [|x a IH]; [done|]. rewrite !string_app_cons. by rewrite IH.
Qed.

Lemma startswith_length p s :
  startswith p s = true → (String.length p ≤ String.length s)%nat.
Proof.
  revert s. induction p as [|x p IH]; intros s H; simpl; [lia|].
  destruct s as [|y s]; [done|]. simpl in *.
  apply andb_true_iff in H as [_ H]. apply IH in H. lia.
Qed.

Lemma startswith_app_l p a b :
  startswith p a = true → startswith p (a ++ b) = true.
Proof.
  revert a. induction p as [|x p IH]; intros a H; [done|].
  destruct a as [|y a]; [done|]. rewrite string_app_cons. simpl in *.
  apply andb_true_iff in H as [-> H]. by apply IH.
Qed.

Lemma occurs_app_l old a b : occurs old a = true → occurs old (a ++ b) = true.
Proof.
  induction a as [|y a IH]; intros H.
  - destruct old; [by destruct b|done].
  - change (occurs old (String y a))
      with (startswith old (String y a) || occurs old a) in H.
    change (occurs old (String y a ++ b))
      with (startswith old (String y a ++ b) || occurs old (a ++ b)).
    apply orb_true_iff in H as [H|H].
    + by rewrite startswith_app_l.
    + rewrite IH by done. apply orb_true_r.
Qed.

Lemma occurs_app_r old a b : occurs old b = true → occurs old (a ++ b) = true.
Proof.
  intros H. induction a as [|y a IH]; [done|].
  change (occurs old (String y a ++ b))
    with (startswith old (String y a ++ b) || occurs old (a ++ b)).
  rewrite IH. apply orb_true_r.
Qed.

(** The scan of a string that is cut by a character foreign to [old] is
    the scan of the two parts, also where the first part has
    occurrences. *)
Lemma replace_from_app_skip old new skip a c rest :
  has_char c old = false →
  (skip ≤ String.length a)%nat →
  replace_from old new skip (a ++ String c rest) =
  replace_from old new skip a ++ replace_from old new 0 (String c rest).
Proof.
  intros Hc. revert skip. induction a as [|y a IH]; intros skip Hskip.
  - simpl in Hskip. by replace skip with 0 by lia.
  - change (String y a ++ String c rest) with (String y (a ++ String c rest)).
    destruct skip as [|k].
    + cbn [replace_from].
      change (String y (a ++ String c rest)) with (String y a ++ String c rest).
      rewrite startswith_app_char by done.
      destruct (startswith old (String y a)) eqn:Hsw.
      * apply startswith_length in Hsw. simpl in Hsw.
        rewrite IH by lia. by rewrite string_app_assoc.
      * by rewrite IH by lia.
    + cbn [replace_from]. simpl in Hskip. apply IH. lia.
Qed.

(** What the result of a scan starts with, the scanned string starts with,
    as long as the first character of [new] is not involved. *)
Lemma startswith_replace_from old c new p s :
  has_char c p = false →
  startswith p (replace_from old (String c new) 0 s) = true →
  startswith p s = true.
Proof.
  revert s. induction p as [|x p IH]; intros s Hc H; [done|].
  apply has_char_cons_false in Hc as [Hx Hp].
  destruct s as [|y s]; [done|].
  cbn [replace_from] in H.
  destruct (startswith old (String y s)).
  - simpl in H. by rewrite Hx in H.
  - simpl in *. apply andb_true_iff in H as [-> H]. by apply IH.
Qed.

(** After the replacement no ['moderate'] is left. *)
Lemma replace_from_moderate_gone skip s :
  occurs "moderate" (replace_from "moderate" "change" skip s) = false.
Proof.
  revert skip. induction s as [|y s IH]; intros skip; [done|].
  destruct skip as [|k]; cbn [replace_from]; [|apply IH].
  destruct (startswith "moderate" (String y s)) eqn:Hsw.
  - specialize (IH (String.length "moderate" - 1)).
    revert IH. generalize (replace_from "moderate" "change"
                             (String.length "moderate" - 1) s).
    intros t Ht. rewrite !string_app_cons. change ("" ++ t) with t.
    cbn. exact Ht.
  - change (occurs "moderate" (String y (replace_from "moderate" "change" 0 s)))
      with (startswith "moderate" (String y (replace_from "moderate" "change" 0 s))
            || occurs "moderate" (replace_from "moderate" "change" 0 s)).
    rewrite IH, orb_false_r.
    apply not_true_is_false. intros H.
    change (Ascii.eqb "m" y &&
            startswith "oderate" (replace_from "moderate" "change" 0 s) = true) in H.
    change (Ascii.eqb "m" y && startswith "oderate" s = false) in Hsw.
    apply andb_true_iff in H as [Hy H].
    apply (startswith_replace_from "moderate" "c" "hange" "oderate") in H; [|done].
    by rewrite Hy, H in Hsw.
Qed.

End ReplaceFacts.

(** ** The permission names in general *)

Section PermissionNames.

Implicit Types (self : MonitorAdmin) (s a b : string).

(** X1.  Whatever the model, the name that line 73 computes for the change
    permission holds no ['moderate']: every occurrence in [mod_perm], those
    inside the app label and the object name too, has been rewritten. *)
Theorem change_perm_no_moderate self :
  occurs "moderate" (change_perm self) = false.
Proof. unfold change_perm, replace. apply replace_from_moderate_gone. Qed.

(** X2.  Line 73 yields the change permission [A.change_O] of the model
    exactly when neither the app label nor the object name, in lower case,
    contains ['moderate']. *)
Theorem change_perm_correct_iff self :
  change_perm self =
    lower (app_label (opts self)) ++ ".change_" ++ lower (object_name (opts self))
  ↔ occurs "moderate" (lower (app_label (opts self))) = false ∧
    occurs "moderate" (lower (object_name (opts self))) = false.
Proof.
  split; [|intros [HA HO]; by apply change_perm_plain].
  intros Heq.
  assert (Hgone : occurs "moderate" (change_perm self) = false)
    by (unfold change_perm, replace; apply replace_from_moderate_gone).
  rewrite Heq in Hgone.
  split; apply not_true_is_false; intros Hocc.
  - by rewrite occurs_app_l in Hgone.
  - by rewrite !occurs_app_r in Hgone.
Qed.

(** X3.  What line 73 computes for any model: the replacement acts on the
    app label and on the object name separately, and the verb between them
    becomes [change]. *)
Theorem change_perm_decompose self :
  change_perm self =
  replace (lower (app_label (opts self))) "moderate" "change" ++ ".change_" ++
  replace (lower (object_name (opts self))) "moderate" "change".
Proof.
  unfold change_perm, mod_perm, replace.
  change (".moderate_" ++ lower (object_name (opts self)))
    with (String "." ("moderate_" ++ lower (object_name (opts self)))).
  rewrite replace_from_app_skip by (done || lia).
  reflexivity.
Qed.

Lemma lower_char_idemp (c : ascii) : lower_char (lower_char c) = lower_char c.
Proof. by destruct c as [[] [] [] [] [] [] [] []]. Qed.

Lemma lower_idemp s : lower (lower s) = lower s.
Proof.
  induction s as [|c s IH]; [done|]. simpl. by rewrite lower_char_idemp, IH.
Qed.

Lemma lower_app a b : lower (a ++ b) = lower a ++ lower b.
Proof.
  induction a as [|c a IH]; [done|]. rewrite string_app_cons. simpl.
  by rewrite IH.
Qed.

(** The scan keeps a string in lower case when [new] is in lower case. *)
Lemma replace_from_lower old new skip s :
  lower new = new → lower s = s →
  lower (replace_from old new skip s) = replace_from old new skip s.
Proof.
  intros Hnew. revert skip. induction s as [|c s IH]; intros skip Hs; [done|].
  simpl in Hs. injection Hs as Hc Hs.
  destruct skip as [|k]; cbn [replace_from]; [|by apply IH].
  destruct (startswith old (String c s)).
  - by rewrite lower_app, Hnew, IH.
  - simpl. by rewrite Hc, IH.
Qed.

(** X4.  Both permission names are in lower case throughout, whatever the
    case of the app label and the object name: lower-casing them again
    changes nothing, and two models whose names differ in case only are
    checked against the same permissions. *)
Theorem perm_names_lower_case self self' :
  lower (mod_perm self) = mod_perm self ∧
  lower (change_perm self) = change_perm self ∧
  (lower (app_label (opts self)) = lower (app_label (opts self')) →
   lower (object_name (opts self)) = lower (object_name (opts self')) →
   mod_perm self = mod_perm self' ∧ change_perm self = change_perm self').
Proof.
  assert (Hmod : ∀ self, lower (mod_perm self) = mod_perm self).
  { intros m. unfold mod_perm. by rewrite !lower_app, !lower_idemp. }
  split_and!; [apply Hmod | |].
  - unfold change_perm, replace. apply replace_from_lower; [done|apply Hmod].
  - intros HA HO. unfold change_perm, mod_perm. by rewrite HA, HO.
Qed.

End PermissionNames.

(** ** What [queryset] does to the request *)

Section QuerysetEffects.

Context (conf : Conf).
Context (ModelAdmin_queryset : MonitorAdmin → HttpRequest → QuerySet).

Implicit Types (self : MonitorAdmin) (request : HttpRequest).

(** The request that a call leaves behind. *)
Lemma queryset_request self request qs request' :
  queryset conf ModelAdmin_queryset self request = Ok (qs, request') →
  request' = if truthy (QueryDict.get (GET request) "status")
             then set_GET request (delete "status" (GET request))
             else request.
Proof.
  intros H. destruct (queryset_returns conf ModelAdmin_queryset self request)
    as [qs0 H0].
  rewrite H0 in H. by injection H as _ <-.
Qed.

(** X5.  Whatever the request, [queryset] touches nothing but the key
    [status]: the actor and every other query parameter are as before, and
    [status] is absent afterwards exactly when its value was true (a
    non-empty string) or it was absent already. *)
Theorem queryset_request_frame self request qs request' :
  queryset conf ModelAdmin_queryset self request = Ok (qs, request') →
  user request' = user request ∧
  (∀ key, key ≠ "status" → GET request' !! key = GET request !! key) ∧
  (GET request' !! "status" = None ↔
     truthy (QueryDict.get (GET request) "status") = true ∨
     GET request !! "status" = None).
Proof.
  intros ->%queryset_request.
  destruct (truthy (QueryDict.get (GET request) "status")) eqn:Ht; simpl.
  - split_and!; [done | |].
    + intros key Hkey. by apply lookup_delete_ne.
    + rewrite lookup_delete_eq. split; [by left|done].
  - split_and!; [done..|]. split; [by right|]. by intros [[=]|].
Qed.

Lemma queryset_falsy_passthrough_aux self request :
  truthy (QueryDict.get (GET request) "status") = false →
  queryset conf ModelAdmin_queryset self request =
  Ok (ModelAdmin_queryset self request, request).
Proof.
  intros Ht. unfold queryset. rewrite Ht. reflexivity.
Qed.

(** X6.  When the [status] parameter is absent, or the last value given
    for it is the empty string ([?status=], [?status=IP&status=]),
    [queryset] is the method of the parent class: the inherited queryset
    comes back and the request keeps all its parameters, [status]
    included. *)
Theorem queryset_falsy_passthrough self request :
  GET request !! "status" = None ∨
  (∃ vs, GET request !! "status" = Some (vs ++ [""])%list) →
  queryset conf ModelAdmin_queryset self request =
  Ok (ModelAdmin_queryset self request, request).
Proof.
  intros H. apply queryset_falsy_passthrough_aux.
  unfold QueryDict.get.
  destruct H as [->|[vs ->]]; [done|]. by rewrite last_snoc.
Qed.

(** X7.  The status filter is used up by the first call: a second call
    with the request that the first one left behind returns the inherited
    queryset unfiltered and changes the request no further. *)
Theorem queryset_second_call self request qs request' :
  queryset conf ModelAdmin_queryset self request = Ok (qs, request') →
  queryset conf ModelAdmin_queryset self request' =
  Ok (ModelAdmin_queryset self request', request').
Proof.
  intros ->%queryset_request.
  destruct (truthy (QueryDict.get (GET request) "status")) eqn:Ht.
  - apply queryset_falsy_passthrough_aux.
    unfold QueryDict.get. simpl. by rewrite lookup_delete_eq.
  - by apply queryset_falsy_passthrough_aux.
Qed.

End QuerysetEffects.

Section QuerysetRows.

Context (conf : Conf).
Context (ModelAdmin_queryset : MonitorAdmin → HttpRequest → QuerySet).

(** X8.  [queryset] only narrows: the rows it returns are rows of the
    inherited queryset, in the order they have there, whatever the value of
    the [status] parameter. *)
Theorem queryset_sublist (self : MonitorAdmin) (request : HttpRequest)
    (qs : QuerySet) (request' : HttpRequest) :
  queryset conf ModelAdmin_queryset self request = Ok (qs, request') →
  qs `sublist_of` ModelAdmin_queryset self request.
Proof.
  unfold queryset. intros H.
  destruct (truthy (QueryDict.get (GET request) "status")) eqn:Ht.
  - rewrite delitem_truthy in H by done. simpl in H. injection H as <- _.
    unfold pending, challenged, approved, by_status.
    repeat case_match; done || apply sublist_filter.
  - simpl in H. by injection H as <- _.
Qed.

End QuerysetRows.

(** ** The action set in full *)

Section GetActionsFull.

Context (approve_selected challenge_selected reset_to_pending : Callable).
Context (ModelAdmin_get_actions : MonitorAdmin → HttpRequest → gmap string Action).

Local Abbreviation actions_of :=
  (get_actions approve_selected challenge_selected reset_to_pending
     ModelAdmin_get_actions).

Implicit Types (self : MonitorAdmin) (request : HttpRequest).

(** X9.  The names of the actions that [get_actions] returns are the
    inherited names, with [approve_selected] and [challenge_selected] added
    for an actor who holds the permission [mod_perm], and [reset_to_pending]
    added for one who holds [change_perm]: no name is dropped and no other
    name is added. *)
Theorem get_actions_dom self request :
  dom (actions_of self request) =
  dom (ModelAdmin_get_actions self request) ∪
  (if has_perm (user request) (mod_perm self)
   then {["approve_selected"; "challenge_selected"]} else ∅) ∪
  (if has_perm (user request) (change_perm self)
   then {["reset_to_pending"]} else ∅).
Proof.
  unfold get_actions.
  destruct (has_perm (user request) (mod_perm self));
    destruct (has_perm (user request) (change_perm self));
    rewrite ?dom_insert_L; apply set_eq; intros name;
    rewrite ?elem_of_union, ?elem_of_singleton, ?elem_of_empty; tauto.
Qed.

(** X10.  An action under any other name than the three is returned as the
    parent class gives it, or not at all if the parent class has none of
    that name. *)
Theorem get_actions_other_names self request (name : string) :
  name ≠ "approve_selected" →
  name ≠ "challenge_selected" →
  name ≠ "reset_to_pending" →
  actions_of self request !! name = ModelAdmin_get_actions self request !! name.
Proof.
  intros Ha Hc Hr. unfold get_actions.
  repeat case_match; by rewrite ?lookup_insert_ne.
Qed.

(** X11.  For a request that [has_moderate_permission] accepts,
    [approve_selected] and [challenge_selected] are stored under their own
    names as [(function, name, description)], the description being the
    function's [short_description] or else the default text; an inherited
    action of the same name is replaced.  The same holds for
    [reset_to_pending] when the actor holds [change_perm]. *)
Theorem get_actions_entries self request :
  (has_moderate_permission self request = true →
   actions_of self request !! "approve_selected" =
     Some (approve_selected, "approve_selected",
           default "approve selected" (short_description approve_selected)) ∧
   actions_of self request !! "challenge_selected" =
     Some (challenge_selected, "challenge_selected",
           default "challenge selected" (short_description challenge_selected))) ∧
  (has_perm (user request) (change_perm self) = true →
   actions_of self request !! "reset_to_pending" =
     Some (reset_to_pending, "reset_to_pending",
           default "reset to pending" (short_description reset_to_pending))).
Proof.
  unfold has_moderate_permission, get_actions, getattr_short_description.
  split.
  - intros ->.
    destruct (has_perm (user request) (change_perm self));
      repeat (rewrite lookup_insert_eq || rewrite lookup_insert_ne by done); done.
  - intros ->. by rewrite lookup_insert_eq.
Qed.

End GetActionsFull.

(** ** The filter registration *)

Section FilterRegistration.

Import FilterSpecs.

(** X12.  Once [monitor.admin] is imported, a field whose [monitor_filter]
    attribute is true gets the [MonitorFilter] whatever filter specs were
    registered before, and a field without the attribute, or with a false
    one, gets the filter it got before. *)
Theorem register_monitor_filter_create (filter_specs : list Spec) (f : Field) :
  (monitor_filter f = Some true →
   create (register_monitor_filter filter_specs) f = Some MonitorFilter) ∧
  (monitor_filter f ≠ Some true →
   create (register_monitor_filter filter_specs) f = create filter_specs f).
Proof.
  unfold register_monitor_filter, monitor_test. simpl.
  split.
  - by intros ->.
  - intros Hf. by destruct (monitor_filter f) as [[]|].
Qed.

End FilterRegistration.

(** ** The permission helpers of the tests *)

Section PermHelperFacts.

Import PermHelpers.

Context (get_for_model : Options → ContentType) (table : list Permission).

(** X13.  A permission that [get_perm] returns is a row of the permission
    table with the content type of the model and the codename asked for,
    and it is the only such row; [get_perm] raises [DoesNotExist] exactly
    when the table has no such row. *)
Theorem get_perm_spec (Model : Options) (perm : string) :
  (∀ p, get_perm get_for_model table Model perm = inr p →
        p ∈ table ∧ content_type p = get_for_model Model ∧ codename p = perm ∧
        ∀ q, q ∈ table → content_type q = get_for_model Model →
             codename q = perm → q = p) ∧
  (get_perm get_for_model table Model perm = inl DoesNotExist ↔
   ∀ q, q ∈ table → ¬ (content_type q = get_for_model Model ∧ codename q = perm)).
Proof.
  unfold get_perm, filter_perms.
  set (P := λ p : Permission,
              content_type p = get_for_model Model ∧ codename p = perm).
  assert (Hin : ∀ q, q ∈ filter P table ↔ P q ∧ q ∈ table)
    by (intros q; apply list_elem_of_filter).
  destruct (filter P table) as [|p0 [|p1 l]] eqn:Hf.
  - split; [done|]. split; [|done].
    intros _ q Hq HP.
    assert (Hq' : q ∈ []) by (apply Hin; by split).
    by apply elem_of_nil in Hq'.
  - split.
    + intros p [= <-].
      destruct (proj1 (Hin p0)) as [[Hct Hcn] Hp0]; [apply list_elem_of_here|].
      split_and!; [done..|].
      intros q Hq Hqct Hqcn.
      assert (Hq' : q ∈ [p0]) by (apply Hin; by split).
      by apply list_elem_of_singleton in Hq'.
    + split; [done|]. intros Hnone.
      destruct (proj1 (Hin p0)) as [HP Hp0]; [apply list_elem_of_here|].
      by destruct (Hnone p0 Hp0).
  - split; [done|]. split; [done|]. intros Hnone.
    destruct (proj1 (Hin p0)) as [HP Hp0]; [apply list_elem_of_here|].
    by destruct (Hnone p0 Hp0).
Qed.

(** X14.  [moderate_perm_exists] is false for a model exactly when
    [get_perm], asked for the moderate permission of that model, raises
    [DoesNotExist]; where [get_perm] returns a permission, the name that
    [MonitorAdmin] checks for the model is the app label in lower case, a
    dot, and the codename of that permission. *)
Theorem moderate_perm_exists_get_perm (self : MonitorAdmin) :
  let Model := opts self in
  (moderate_perm_exists get_for_model table Model = false ↔
   get_perm get_for_model table Model (moderate_codename Model) = inl DoesNotExist) ∧
  (∀ p, get_perm get_for_model table Model (moderate_codename Model) = inr p →
        moderate_perm_exists get_for_model table Model = true ∧
        mod_perm self = lower (app_label Model) ++ "." ++ codename p).
Proof.
  intros Model. unfold moderate_perm_exists, get_perm.
  destruct (filter_perms table (get_for_model Model) (moderate_codename Model))
    as [|p0 [|p1 l]] eqn:Hf; simpl.
  - done.
  - split; [done|].
    intros p [= <-]. split; [done|].
    assert (Hp0 : p0 ∈ filter_perms table (get_for_model Model) (moderate_codename Model))
      by (rewrite Hf; apply list_elem_of_here).
    apply list_elem_of_filter in Hp0 as [[_ ->] _].
    reflexivity.
  - done.
Qed.

End PermHelperFacts.

(** ** The further properties at sample data *)

Section FurtherWitnesses.

Import Sample Fixture.

(** X2 at the author admin: no ['moderate'] in [testapp] or [author]. *)
Lemma change_perm_correct_iff_witness :
  change_perm author_admin = "testapp.change_author".
Proof.
  exact (proj2 (change_perm_correct_iff author_admin) (conj eq_refl eq_refl)).
Defined.

(** X4 at the author admin and the admin of the app [Moderated]. *)
Lemma perm_names_lower_case_witness :
  lower (mod_perm moderated_app_admin) = "moderated.moderate_post" ∧
  lower (change_perm moderated_app_admin) = "changed.change_post" ∧
  mod_perm capital_author_admin = mod_perm author_admin ∧
  change_perm capital_author_admin = change_perm author_admin.
Proof.
  destruct (perm_names_lower_case moderated_app_admin moderated_app_admin)
    as (Hm & Hc & _).
  destruct (perm_names_lower_case capital_author_admin author_admin)
    as (_ & _ & Hsame).
  split_and!; [by rewrite Hm | by rewrite Hc | apply (Hsame eq_refl eq_refl)..].
Defined.

(** X5 at [?status=IP&status=CH&page=2]. *)
Lemma queryset_request_frame_witness :
  ∃ qs request',
    queryset conf ModelAdmin_queryset author_admin paged_request =
      Ok (qs, request') ∧
    user request' = adder ∧
    GET request' !! "page" = Some ["2"] ∧
    GET request' !! "status" = None.
Proof.
  destruct (queryset conf ModelAdmin_queryset author_admin paged_request)
    as [[qs request']|e] eqn:H; [|by vm_compute in H].
  exists qs, request'. split; [reflexivity|].
  destruct (queryset_request_frame conf ModelAdmin_queryset author_admin
              paged_request qs request' H) as (Hu & Hk & Hs).
  split_and!.
  - by rewrite Hu.
  - by rewrite Hk.
  - apply Hs. by left.
Defined.

(** X6 at [?status=&page=2]. *)
Lemma queryset_falsy_passthrough_witness :
  GET blank_request !! "status" = Some [""] ∧
  queryset conf ModelAdmin_queryset author_admin blank_request =
  Ok (authors, blank_request).
Proof.
  split; [reflexivity|].
  apply (queryset_falsy_passthrough conf ModelAdmin_queryset author_admin
           blank_request).
  right. by exists [].
Defined.

(** X7 at [?status=CH]: the first call filters, the second does not. *)
Lemma queryset_second_call_witness :
  ∃ request',
    queryset conf ModelAdmin_queryset author_admin challenged_request =
      Ok ([author_2], request') ∧
    queryset conf ModelAdmin_queryset author_admin request' =
      Ok (authors, request').
Proof.
  destruct (queryset conf ModelAdmin_queryset author_admin challenged_request)
    as [[qs request']|e] eqn:H; [|by vm_compute in H].
  exists request'. split.
  - vm_compute in H. injection H as <- _. reflexivity.
  - apply (queryset_second_call conf ModelAdmin_queryset author_admin
             challenged_request qs request' H).
Defined.

(** X8 at [?status=CH]. *)
Lemma queryset_sublist_witness :
  ∃ request',
    queryset conf ModelAdmin_queryset author_admin challenged_request =
      Ok ([author_2], request') ∧
    [author_2] `sublist_of` authors.
Proof.
  eexists. split; [reflexivity|].
  eapply (queryset_sublist conf ModelAdmin_queryset author_admin
            challenged_request). reflexivity.
Defined.

(** X10 at [delete_selected], which the parent class offers. *)
Lemma get_actions_other_names_witness :
  get_actions (action "approve_selected") (action "challenge_selected")
    (action "reset_to_pending") Fixture.ModelAdmin_get_actions author_admin
    superuser_request !! "delete_selected" =
  Some (action "delete_selected", "delete_selected", "Delete selected").
Proof.
  rewrite (get_actions_other_names (action "approve_selected")
             (action "challenge_selected") (action "reset_to_pending")
             Fixture.ModelAdmin_get_actions author_admin superuser_request
             "delete_selected") by done.
  reflexivity.
Defined.

(** X11 at the superuser. *)
Lemma get_actions_entries_witness :
  has_moderate_permission author_admin superuser_request = true ∧
  get_actions (action "approve_selected") (action "challenge_selected")
    (action "reset_to_pending") Fixture.ModelAdmin_get_actions author_admin
    superuser_request !! "approve_selected" =
  Some (action "approve_selected", "approve_selected", "approve selected").
Proof.
  split; [reflexivity|].
  apply (proj1 (get_actions_entries (action "approve_selected")
                  (action "challenge_selected") (action "reset_to_pending")
                  Fixture.ModelAdmin_get_actions author_admin superuser_request)
           eq_refl).
Defined.

(** X12 at a field that Django would give the related-field filter. *)
Lemma register_monitor_filter_create_witness :
  FilterSpecs.create django_specs status_field =
    Some (FilterSpecs.DjangoFilter "RelatedFilterSpec") ∧
  FilterSpecs.create (FilterSpecs.register_monitor_filter django_specs) status_field =
    Some FilterSpecs.MonitorFilter.
Proof.
  split; [reflexivity|].
  apply (proj1 (register_monitor_filter_create django_specs status_field)).
  reflexivity.
Defined.

(** X13 at [get_perm(Author, 'moderate_author')] of [setUp]. *)
Lemma get_perm_spec_witness :
  ∃ p,
    PermHelpers.get_perm Fixture.get_for_model permissions (opts author_admin)
      "moderate_author" = inr p ∧
    p ∈ permissions ∧ PermHelpers.codename p = "moderate_author".
Proof.
  eexists. split; [reflexivity|].
  destruct (proj1 (get_perm_spec Fixture.get_for_model permissions
                     (opts author_admin) "moderate_author") _ eq_refl)
    as (Hin & _ & Hcn & _).
  by split.
Defined.

(** X14 at the author model. *)
Lemma moderate_perm_exists_get_perm_witness :
  PermHelpers.moderate_perm_exists Fixture.get_for_model permissions
    (opts author_admin) = true ∧
  mod_perm author_admin = "testapp.moderate_author".
Proof.
  destruct (proj2 (moderate_perm_exists_get_perm Fixture.get_for_model
                     permissions author_admin) _ eq_refl) as [He Hm].
  split; [exact He|]. rewrite Hm. reflexivity.
Defined.

End FurtherWitnesses.
